(** * Steward: delivery, dispatch and reply routing

    A shallow embedding of the message readers ([message_readers.go]), the
    publisher and subscriber workers ([process.go]), the request table and
    reply routing (the requests file) and the signature check (the node
    authentication file), with the properties of the specification stated
    and settled against them.

    Conventions.
    - A Go [string] is a [string]; a [[]byte] is a [list byte] whose [nil]
      is [[]]; a Go [int] is a [Z] kept in the 64-bit range by [wrap_int].
    - A Go [map] is a [gmap]; a [map[K]struct{}] used as a set is a [gset].
    - A pointer that may be [nil] is an [option].
    - Calls that leave the process (the broker, the error kernel, the ring
      buffer channel, the log) are recorded, in order, in an event list.
    - Library primitives the code calls but does not define
      ([yaml.Unmarshal], [gob], [ed25519.Verify], [filepath.Join], the
      bodies of the method handlers) are parameters of the definitions. *)

From Stdlib Require Import ZArith List Bool Lia.
From stdpp Require Import gmap strings list.
Import ListNotations.

Open Scope Z_scope.
Open Scope string_scope.
Open Scope list_scope.

Set Warnings "-register-all".

(* ===================================================================== *)
(** ** Data model *)
(* ===================================================================== *)

Abbreviation Node := string (only parsing).
Abbreviation Method := string (only parsing).
Abbreviation bytes := (list Byte.byte) (only parsing).

(** Go's [int] on the supported platforms: 64 bits, two's complement. *)
Definition int_min : Z := - 2 ^ 63.
Definition int_max : Z := 2 ^ 63 - 1.
Definition in_int (z : Z) : Prop := int_min <= z <= int_max.
Definition wrap_int (z : Z) : Z := (z + 2 ^ 63) mod 2 ^ 64 - 2 ^ 63.

(** The request names of the requests file (the ones the properties name). *)
Definition REQCliCommand : Method := "REQCliCommand".
Definition REQCliCommandCont : Method := "REQCliCommandCont".
Definition REQToFileAppend : Method := "REQToFileAppend".
Definition REQToFile : Method := "REQToFile".
Definition REQHello : Method := "REQHello".
Definition REQNone : Method := "REQNone".

(** [process.go] tells four kinds apart (CommandACK, EventACK, CommandNACK,
    EventNACK); the request table only uses the two Event ones. The type
    is a Go string, so any other value can be stored in it. *)
Inductive Event : Type :=
| EventACK
| EventNACK
| CommandACK
| CommandNACK
| EventUnknown (name : string).

Definition isACK (e : Event) : bool :=
  match e with CommandACK | EventACK => true | _ => false end.

Definition isNACK (e : Event) : bool :=
  match e with CommandNACK | EventNACK => true | _ => false end.

(** [type Message struct]. The field [Method] is [Method_] here, next to
    the type of that name. [process.go] calls the ACK wait [Timeout]; the
    later files call it [ACKTimeout]. *)
Inductive Message : Type := mkMessage {
  ToNode : Node;
  ToNodes : list Node;
  ID : Z;
  Data : bytes;
  Method_ : Method;
  MethodArgs : list string;
  ArgSignature : bytes;
  ReplyMethod : Method;
  ReplyMethodArgs : list string;
  IsReply : bool;
  FromNode : Node;
  ACKTimeout : Z;
  Retries : Z;
  ReplyACKTimeout : Z;
  ReplyRetries : Z;
  MethodTimeout : Z;
  ReplyMethodTimeout : Z;
  Directory : string;
  FileName : string;
  PreviousMessage : option Message
}.

(** [Message{}] *)
Definition zeroMessage : Message :=
  mkMessage "" [] 0 [] "" [] [] "" [] false "" 0 0 0 0 0 0 "" "" None.

(** Assignments to one field of a copy ([m.ToNode = n] and the like). *)
Definition set_ToNode (n : Node) (m : Message) : Message :=
  mkMessage n (ToNodes m) (ID m) (Data m) (Method_ m) (MethodArgs m)
    (ArgSignature m) (ReplyMethod m) (ReplyMethodArgs m) (IsReply m)
    (FromNode m) (ACKTimeout m) (Retries m) (ReplyACKTimeout m)
    (ReplyRetries m) (MethodTimeout m) (ReplyMethodTimeout m) (Directory m)
    (FileName m) (PreviousMessage m).

Definition set_ToNodes (ns : list Node) (m : Message) : Message :=
  mkMessage (ToNode m) ns (ID m) (Data m) (Method_ m) (MethodArgs m)
    (ArgSignature m) (ReplyMethod m) (ReplyMethodArgs m) (IsReply m)
    (FromNode m) (ACKTimeout m) (Retries m) (ReplyACKTimeout m)
    (ReplyRetries m) (MethodTimeout m) (ReplyMethodTimeout m) (Directory m)
    (FileName m) (PreviousMessage m).

Definition set_Data (d : bytes) (m : Message) : Message :=
  mkMessage (ToNode m) (ToNodes m) (ID m) d (Method_ m) (MethodArgs m)
    (ArgSignature m) (ReplyMethod m) (ReplyMethodArgs m) (IsReply m)
    (FromNode m) (ACKTimeout m) (Retries m) (ReplyACKTimeout m)
    (ReplyRetries m) (MethodTimeout m) (ReplyMethodTimeout m) (Directory m)
    (FileName m) (PreviousMessage m).

Definition set_ReplyMethod (r : Method) (m : Message) : Message :=
  mkMessage (ToNode m) (ToNodes m) (ID m) (Data m) (Method_ m) (MethodArgs m)
    (ArgSignature m) r (ReplyMethodArgs m) (IsReply m)
    (FromNode m) (ACKTimeout m) (Retries m) (ReplyACKTimeout m)
    (ReplyRetries m) (MethodTimeout m) (ReplyMethodTimeout m) (Directory m)
    (FileName m) (PreviousMessage m).

(** [type Subject struct]: the fields that make up the subject name. *)
Record Subject : Type := mkSubject {
  Subject_ToNode : string;
  Subject_Event : Event;
  Subject_Method : Method
}.

Definition zeroSubject : Subject := mkSubject "" (EventUnknown "") "".

(** [type subjectAndMessage struct { Subject; Message }] *)
Record subjectAndMessage : Type := mkSAM {
  sam_Subject : Subject;
  sam_Message : Message
}.

(** [subjectAndMessage{}] *)
Definition zeroSAM : subjectAndMessage := mkSAM zeroSubject zeroMessage.

(** The errors the modelled functions build with [fmt.Errorf], by the
    format string that builds them. *)
Inductive error : Type :=
| ErrNoSuchRequestType (m : Method)
| ErrToNodeEmpty (m : Message)
| ErrMethodEmpty (m : Message)
| ErrNoToNodeOrToNodes (m : Message)
| ErrUnmarshal
| ErrNewSubjectAndMessage (e : error)
| ErrReplySubject (e : error) (m : Message)
| ErrMissingFromField
| ErrMethodNotAvailable (e : Event)
| ErrHandlerFailed.

Inductive result (A : Type) : Type :=
| Ok (a : A)
| Err (e : error).
Arguments Ok {A} a.
Arguments Err {A} e.

(* ===================================================================== *)
(** ** The request table (requests file) *)
(* ===================================================================== *)

(** A value of the [methodHandler] interface: the Go struct type behind it
    and the [event] field that [getKind] returns. *)
Record methodHandler : Type := mkHandler {
  goType : string;
  event : Event
}.

Definition getKind (h : methodHandler) : Event := event h.

(** [GetMethodsAvailable], entry by entry. *)
Definition Methodhandlers_entries : list (Method * methodHandler) :=
  [ ("REQInitial", mkHandler "methodREQInitial" EventACK);
    ("REQOpProcessList", mkHandler "methodREQOpProcessList" EventACK);
    ("REQOpProcessStart", mkHandler "methodREQOpProcessStart" EventACK);
    ("REQOpProcessStop", mkHandler "methodREQOpProcessStop" EventACK);
    ("REQCliCommand", mkHandler "methodREQCliCommand" EventACK);
    ("REQCliCommandCont", mkHandler "methodREQCliCommandCont" EventACK);
    ("REQToConsole", mkHandler "methodREQToConsole" EventACK);
    ("REQTuiToConsole", mkHandler "methodREQTuiToConsole" EventACK);
    ("REQToFileAppend", mkHandler "methodREQToFileAppend" EventACK);
    ("REQToFile", mkHandler "methodREQToFile" EventACK);
    ("REQToFileNACK", mkHandler "methodREQToFile" EventNACK);
    ("REQCopyFileFrom", mkHandler "methodREQCopyFileFrom" EventACK);
    ("REQCopyFileTo", mkHandler "methodREQCopyFileTo" EventACK);
    ("REQHello", mkHandler "methodREQHello" EventNACK);
    ("REQErrorLog", mkHandler "methodREQErrorLog" EventACK);
    ("REQPing", mkHandler "methodREQPing" EventACK);
    ("REQPong", mkHandler "methodREQPong" EventACK);
    ("REQHttpGet", mkHandler "methodREQHttpGet" EventACK);
    ("REQHttpGetScheduled", mkHandler "methodREQHttpGetScheduled" EventACK);
    ("REQTailFile", mkHandler "methodREQTailFile" EventACK);
    ("REQRelay", mkHandler "methodREQRelay" EventACK);
    ("REQRelayInitial", mkHandler "methodREQRelayInitial" EventACK);
    ("REQPublicKey", mkHandler "methodREQPublicKey" EventACK);
    ("REQKeysRequestUpdate", mkHandler "methodREQKeysRequestUpdate" EventNACK);
    ("REQKeysDeliverUpdate", mkHandler "methodREQKeysDeliverUpdate" EventNACK);
    ("REQKeysAllow", mkHandler "methodREQKeysAllow" EventACK);
    ("REQKeysDelete", mkHandler "methodREQKeysDelete" EventACK);
    ("REQAclRequestUpdate", mkHandler "methodREQAclRequestUpdate" EventNACK);
    ("REQAclDeliverUpdate", mkHandler "methodREQAclDeliverUpdate" EventNACK);
    ("REQAclAddCommand", mkHandler "methodREQAclAddCommand" EventACK);
    ("REQAclDeleteCommand", mkHandler "methodREQAclDeleteCommand" EventACK);
    ("REQAclDeleteSource", mkHandler "methodREQAclDeleteSource" EventACK);
    ("REQAclGroupNodesAddNode", mkHandler "methodREQAclGroupNodesAddNode" EventACK);
    ("REQAclGroupNodesDeleteNode", mkHandler "methodREQAclGroupNodesDeleteNode" EventACK);
    ("REQAclGroupNodesDeleteGroup", mkHandler "methodREQAclGroupNodesDeleteGroup" EventACK);
    ("REQAclGroupCommandsAddCommand", mkHandler "methodREQAclGroupCommandsAddCommand" EventACK);
    ("REQAclGroupCommandsDeleteCommand", mkHandler "methodREQAclGroupCommandsDeleteCommand" EventACK);
    ("REQAclGroupCommandsDeleteGroup", mkHandler "methodREQAclGroupCommandsDeleteGroup" EventACK);
    ("REQAclExport", mkHandler "methodREQAclExport" EventACK);
    ("REQAclImport", mkHandler "methodREQAclImport" EventACK);
    ("REQTest", mkHandler "methodREQTest" EventACK) ].

(** [type MethodsAvailable struct { Methodhandlers map[Method]methodHandler }] *)
Record MethodsAvailable : Type := mkMethodsAvailable {
  Methodhandlers : gmap string methodHandler
}.

Definition GetMethodsAvailable : MethodsAvailable :=
  mkMethodsAvailable (list_to_map Methodhandlers_entries).

(** [getHandler]: the map's value, [nil] (here [None]) for a missing key. *)
Definition getHandler (method : Method) : option methodHandler :=
  Methodhandlers GetMethodsAvailable !! method.

Arguments getHandler : simpl never.

(** [CheckIfExists]: the handler and [true], or [nil] and [false]. *)
Definition CheckIfExists (ma : MethodsAvailable) (m : Method)
  : option methodHandler * bool :=
  match Methodhandlers ma !! m with
  | Some mFunc => (Some mFunc, true)
  | None => (None, false)
  end.


(* ===================================================================== *)
(** ** Processes, effects and the primitives taken as given *)
(* ===================================================================== *)

(** The fields of [Configuration] that the modelled functions read. *)
Record Configuration : Type := mkConfiguration {
  EnableSignatureCheck : bool;
  SubscribersDataFolder : string
}.

(** [type process struct]: the fields that the modelled functions read. *)
Record process : Type := mkProcess {
  subject : Subject;
  node : Node;
  processKind : string;
  allowedReceivers : gset string;
  methodsAvailable : MethodsAvailable;
  configuration : Configuration
}.

Definition processKindSubscriber : string := "subscriber".
Definition processKindPublisher : string := "publisher".

(** The zero [process]: what a Go map lookup yields for a missing key. Its
    method table is the nil map, on which every lookup misses. *)
Definition zeroProcess : process :=
  mkProcess zeroSubject "" "" ∅ (mkMethodsAvailable ∅) (mkConfiguration false "").

(** The lines written with [log.Printf] and [fmt.Printf], by the place that
    writes them. *)
Inductive logLine : Type :=
| LogCreateDataPayload
| LogSubscribeSyncFailed
| LogPublishFailed
| PrintPreparingToSend (m : Message)
| LogNextMsgFailed
| PrintRetryAttempts (retryAttempts retries timeout : Z)
| LogMaxRetries (retryAttempts : Z)
| LogReceivedACK (data : bytes)
| LogGobDecodingFailed
| LogPreparingToCallHandler
| LogMethodNotAvailable (e : Event)
| LogHandlerFailed
| LogNotAllowed (from : Node)
| LogUnknownKind (e : Event).

(** What a function does to the world outside it, in the order it does it. *)
Inductive effect : Type :=
| SubscribeSync (subj : string) (ok : bool)
| PublishMsg (subj reply : string) (data : bytes) (ok : bool)
| NextMsg (timeout : Z) (got : option bytes)
| Publish (subj : string) (data : bytes)
| HandlerCall (h : methodHandler) (m : Message) (thisNode : string)
| ErrSend (m : Message) (e : error)
| SendErrorLog (thisNode : string)
| ToRingBuffer (sams : list subjectAndMessage)
| Log (l : logLine).

(** How a call ends: it returns, or it panics on a nil method handler or on
    an index out of range. *)
Inductive panic : Type :=
| NilHandler
| IndexOutOfRange (i : nat) (len : nat).

Inductive outcome (A : Type) : Type :=
| Returned (a : A) (log : list effect)
| Panicked (why : panic) (log : list effect).
Arguments Returned {A} a log.
Arguments Panicked {A} why log.

(** The primitives of the Go libraries and the handler bodies, which are
    outside the modelled files. [handler_run] gives the bytes a handler
    returns and whether its error is non-nil; [gobEncodeMessage] and
    [gobDecode] give the value produced and whether an error came with it;
    [ed25519_verify] is the signature check on a key of the right size;
    [filepath_Clean] is the path normalisation that ends [filepath.Join]. *)
Class Runtime : Type := mkRuntime {
  yaml_Unmarshal : bytes -> option (list Message);
  gobEncodeMessage : Message -> bytes * bool;
  gobDecode : bytes -> Message * bool;
  handler_run : methodHandler -> process -> Message -> string -> bytes * bool;
  ed25519_verify : bytes -> bytes -> bytes -> bool;
  filepath_Clean : string -> string
}.

(** Counting the effects of one sort in a log. *)
Definition is_PublishMsg_ok (e : effect) : bool :=
  match e with PublishMsg _ _ _ true => true | _ => false end.
Definition is_PublishMsg_failed (e : effect) : bool :=
  match e with PublishMsg _ _ _ false => true | _ => false end.
Definition is_PublishMsg (e : effect) : bool :=
  match e with PublishMsg _ _ _ _ => true | _ => false end.
Definition is_SubscribeSync (e : effect) : bool :=
  match e with SubscribeSync _ _ => true | _ => false end.
Definition is_SubscribeSync_ok (e : effect) : bool :=
  match e with SubscribeSync _ true => true | _ => false end.
Definition is_NextMsg (e : effect) : bool :=
  match e with NextMsg _ _ => true | _ => false end.
Definition is_HandlerCall (e : effect) : bool :=
  match e with HandlerCall _ _ _ => true | _ => false end.
Definition is_broker (e : effect) : bool :=
  match e with
  | SubscribeSync _ _ | PublishMsg _ _ _ _ | NextMsg _ _ | Publish _ _ => true
  | _ => false
  end.

Definition count (f : effect -> bool) (log : list effect) : nat :=
  length (List.filter f log).

(** Modelled from the spec: [Subject.name] is not among the source files;
    the spec gives the canonical wire name as [<ToNode>.<Method>.<Event>]. *)
Definition Event_name (e : Event) : string :=
  match e with
  | EventACK => "EventACK"
  | EventNACK => "EventNACK"
  | CommandACK => "CommandACK"
  | CommandNACK => "CommandNACK"
  | EventUnknown s => s
  end.

Definition Subject_name (s : Subject) : string :=
  String.append (Subject_ToNode s)
    (String.append "." (String.append (Subject_Method s)
       (String.append "." (Event_name (Subject_Event s))))).

(** Modelled from the spec: [processNameGet] is not among the source files;
    the spec gives the registry key as [<subject-canonical>.<kind>]. *)
Definition processNameGet (sn : string) (pk : string) : string :=
  String.append sn (String.append "." pk).

(* ===================================================================== *)
(** ** Message readers ([message_readers.go]) *)
(* ===================================================================== *)

(** [checkMessageToNodes]: one turn of the loop over [MsgSlice]. The state
    is the slice [msgs] built so far and the errors sent so far. *)
Definition checkMessageToNodes_body
  (st : list Message * list effect) (v : Message) : list Message * list effect :=
  let '(msgs, errs) := st in
  if negb (String.eqb (ToNode v) "") then
    (msgs ++ [v], errs)
  else if negb (Nat.eqb (length (ToNodes v)) 0) then
    (fold_left
       (fun msgs n =>
          let m := v in
          let m := set_ToNodes [] m in
          let m := set_ToNode n m in
          msgs ++ [m])
       (ToNodes v) msgs,
     errs)
  else
    (msgs, errs ++ [ErrSend v (ErrNoToNodeOrToNodes v)]).

Definition checkMessageToNodes (MsgSlice : list Message)
  : list Message * list effect :=
  fold_left checkMessageToNodes_body MsgSlice ([], []).

(** [newSubjectAndMessage] *)
Definition newSubjectAndMessage (m : Message) : result subjectAndMessage :=
  match getHandler (Method_ m) with
  | None => Err (ErrNoSuchRequestType (Method_ m))
  | Some tmpH =>
      if String.eqb (ToNode m) "" then Err (ErrToNodeEmpty m)
      else if String.eqb (Method_ m) "" then Err (ErrMethodEmpty m)
      else
        let sub := mkSubject (ToNode m) (getKind tmpH) (Method_ m) in
        Ok (mkSAM sub m)
  end.

(** [convertBytesToSAMs]: one turn of the loop over the checked messages. *)
Definition convertBytesToSAMs_body
  (st : list subjectAndMessage * list effect) (m : Message)
  : list subjectAndMessage * list effect :=
  let '(sam, errs) := st in
  match newSubjectAndMessage m with
  | Err err => (sam, errs ++ [ErrSend m (ErrNewSubjectAndMessage err)])
  | Ok sm => (sam ++ [sm], errs)
  end.

(** [convertBytesToSAMs]: the slice (or the unmarshal error) and the errors
    sent to the error kernel on the way. The metrics counter is left out. *)
Definition convertBytesToSAMs `{Runtime} (b : bytes)
  : result (list subjectAndMessage) * list effect :=
  match yaml_Unmarshal b with
  | None => (Err ErrUnmarshal, [])
  | Some MsgSlice =>
      let '(MsgSlice, errs) := checkMessageToNodes MsgSlice in
      let '(sam, errs) := fold_left convertBytesToSAMs_body MsgSlice ([], errs) in
      (Ok sam, errs)
  end.

(** The loop of [readStartupFolder] that removes the messages with no
    [FromNode]. [for i := range sams] fixes the number of turns when the
    loop starts ([turns] counts the ones left); the body reads and
    reassigns the variable [sams]. *)
Fixpoint removeBlankFromNode (turns : nat) (i : nat)
  (sams : list subjectAndMessage) (log : list effect)
  : outcome (list subjectAndMessage) :=
  match turns with
  | O => Returned sams log
  | S turns' =>
      match sams !! i with
      | None => Panicked (IndexOutOfRange i (length sams)) log
      | Some x =>
          let '(sams, log) :=
            if String.eqb (FromNode (sam_Message x)) "" then
              (take i sams ++ drop (S i) sams,
               log ++ [ErrSend zeroMessage ErrMissingFromField])
            else (sams, log) in
          if (Z.of_nat i =? Z.of_nat (length sams) - 1)%Z then Returned sams log
          else removeBlankFromNode turns' (S i) sams log
      end
  end.

(** The second loop of [readStartupFolder]: find the subscriber process of
    the subject, look the method up in its table, call the handler. *)
Definition handleStartupSAM `{Runtime} (procNames : gmap string process)
  (nodeName : string) (log : list effect) (sam : subjectAndMessage)
  : list effect :=
  let processName :=
    processNameGet (Subject_name (sam_Subject sam)) processKindSubscriber in
  let p := default zeroProcess (procNames !! processName) in
  match CheckIfExists (methodsAvailable p) (Method_ (sam_Message sam)) with
  | (Some mh, true) =>
      let '(_, err) := handler_run mh p (sam_Message sam) nodeName in
      let log := log ++ [HandlerCall mh (sam_Message sam) nodeName] in
      if err then log ++ [ErrSend (sam_Message sam) ErrHandlerFailed] else log
  | _ =>
      log ++ [ErrSend (sam_Message sam)
                (ErrMethodNotAvailable (Subject_Event (subject p)))]
  end.

(** [bytes.Trim(readBytes, "\x00")] *)
Definition is_x00 (b : Byte.byte) : bool :=
  match b with Byte.x00 => true | _ => false end.

Fixpoint trimLeft_x00 (b : bytes) : bytes :=
  match b with
  | c :: b' => if is_x00 c then trimLeft_x00 b' else b
  | [] => []
  end.

Definition bytes_Trim_x00 (b : bytes) : bytes :=
  rev (trimLeft_x00 (rev (trimLeft_x00 b))).

(** The body of [readStartupFolder] for one file whose content was read. *)
Definition readStartupFile `{Runtime} (procNames : gmap string process)
  (nodeName : string) (readBytes : bytes) : outcome unit :=
  let readBytes := bytes_Trim_x00 readBytes in
  match convertBytesToSAMs readBytes with
  | (Err _, log) => Returned tt (log ++ [ErrSend zeroMessage ErrUnmarshal])
  | (Ok sams, log) =>
      match removeBlankFromNode (length sams) 0 sams log with
      | Panicked why log => Panicked why log
      | Returned sams log =>
          Returned tt (fold_left (handleStartupSAM procNames nodeName) sams log)
      end
  end.

(* ===================================================================== *)
(** ** The publisher loop ([process.go], [messageDeliverNats]) *)
(* ===================================================================== *)

(** What the broker answers during one turn of the loop: whether
    [SubscribeSync] fails, whether [PublishMsg] fails, and what [NextMsg]
    yields before the timeout ([None] when the timeout strikes first). A
    turn reads the answers it gets to, in this order. *)
Record brokerTurn : Type := mkTurn {
  subscribeFails : bool;
  publishFails : bool;
  reply : option bytes
}.

Definition replyArrives (d : bytes) : brokerTurn := mkTurn false false (Some d).
Definition timesOut : brokerTurn := mkTurn false false None.
(** A turn in which the broker takes the subscription and the publish (all
    that a publisher of a NACK subject asks of it). *)
Definition accepts : brokerTurn := mkTurn false false None.
Definition brokerFails (a : brokerTurn) : bool :=
  subscribeFails a || publishFails a.

(** The loop runs for as long as the broker keeps answering: [Delivered]
    when it reached a [return], [StillTrying] when every answer it was given
    sent it round again. *)
Inductive delivery : Type :=
| Delivered (log : list effect)
| StillTrying (retryAttempts : Z) (log : list effect).

Definition delivery_log (d : delivery) : list effect :=
  match d with Delivered log | StillTrying _ log => log end.

Fixpoint deliverLoop `{Runtime} (proc : process) (message : Message)
  (retryAttempts : Z) (answers : list brokerTurn) (log : list effect)
  : delivery :=
  match answers with
  | [] => StillTrying retryAttempts log
  | a :: answers =>
      let '(dataPayload, encErr) := gobEncodeMessage message in
      let log := if encErr then log ++ [Log LogCreateDataPayload] else log in
      let msgSubject := Subject_name (subject proc) in
      let msgReply := String.append "reply." (Subject_name (subject proc)) in
      if subscribeFails a then
        deliverLoop proc message retryAttempts answers
          (log ++ [SubscribeSync msgReply false; Log LogSubscribeSyncFailed])
      else
        let log := log ++ [SubscribeSync msgReply true] in
        if publishFails a then
          deliverLoop proc message retryAttempts answers
            (log ++ [PublishMsg msgSubject msgReply dataPayload false;
                     Log LogPublishFailed])
        else
          let log := log ++ [PublishMsg msgSubject msgReply dataPayload true;
                             Log (PrintPreparingToSend message)] in
          if isACK (Subject_Event (subject proc)) then
            match reply a with
            | None =>
                let log := log ++ [NextMsg (ACKTimeout message) None;
                                   Log LogNextMsgFailed] in
                let retryAttempts := wrap_int (retryAttempts + 1) in
                let log := log ++ [Log (PrintRetryAttempts retryAttempts
                                          (Retries message) (ACKTimeout message))] in
                if (Retries message =? 0)%Z then
                  deliverLoop proc message retryAttempts answers log
                else if (retryAttempts >=? Retries message)%Z then
                  Delivered (log ++ [Log (LogMaxRetries retryAttempts)])
                else
                  deliverLoop proc message retryAttempts answers log
            | Some d =>
                Delivered (log ++ [NextMsg (ACKTimeout message) (Some d);
                                   Log (LogReceivedACK d)])
            end
          else Delivered log
  end.

(** [messageDeliverNats] *)
Definition messageDeliverNats `{Runtime} (proc : process) (message : Message)
  (answers : list brokerTurn) : delivery :=
  deliverLoop proc message 0 answers [].

(* ===================================================================== *)
(** ** The subscriber's handler ([process.go], [subscriberHandler]) *)
(* ===================================================================== *)

(** [[]byte("not allowed from " + message.FromNode)] *)
Definition notAllowedFrom (from : Node) : bytes :=
  String.list_byte_of_string (String.append "not allowed from " from).

(** [subscriberHandler]. [ma] is [s.methodsAvailable]; [msgData] and
    [msgReply] are the [Data] and [Reply] of the broker message. *)
Definition subscriberHandler `{Runtime} (p : process) (ma : MethodsAvailable)
  (thisNode : string) (msgData : bytes) (msgReply : string) : outcome unit :=
  let '(message, decErr) := gobDecode msgData in
  let log := if decErr then [Log LogGobDecodingFailed] else [] in
  if isACK (Subject_Event (subject p)) then
    let log := log ++ [Log LogPreparingToCallHandler] in
    let '(mf, ok) := CheckIfExists ma (Method_ message) in
    let log :=
      if ok then log
      else log ++ [Log (LogMethodNotAvailable (Subject_Event (subject p)))] in
    let out := notAllowedFrom (FromNode message) in
    let arOK1 := bool_decide (FromNode message ∈ allowedReceivers p) in
    let arOK2 := bool_decide ("*" ∈ allowedReceivers p) in
    let after (out : bytes) (log : list effect) : outcome unit :=
      Returned tt (log ++ [Publish msgReply out; SendErrorLog thisNode]) in
    if arOK1 || arOK2 then
      match mf with
      | None => Panicked NilHandler log
      | Some h =>
          let '(out, err) := handler_run h p message thisNode in
          let log := log ++ [HandlerCall h message thisNode] in
          let log := if err then log ++ [Log LogHandlerFailed] else log in
          after out log
      end
    else
      after out (log ++ [Log (LogNotAllowed (FromNode message))])
  else if isNACK (Subject_Event (subject p)) then
    let log := log ++ [Log LogPreparingToCallHandler] in
    let '(mf, ok) := CheckIfExists ma (Method_ message) in
    let log :=
      if ok then log
      else log ++ [Log (LogMethodNotAvailable (Subject_Event (subject p)))] in
    match mf with
    | None => Panicked NilHandler log
    | Some h =>
        let '(_, err) := handler_run h p message thisNode in
        let log := log ++ [HandlerCall h message thisNode] in
        let log := if err then log ++ [Log LogHandlerFailed] else log in
        Returned tt log
    end
  else
    Returned tt (log ++ [Log (LogUnknownKind (Subject_Event (subject p)))]).

(* ===================================================================== *)
(** ** The signature check (node authentication file) *)
(* ===================================================================== *)

Record keysAndHash : Type := mkKeysAndHash {
  Keys : gmap string bytes;
  Hash : bytes
}.

(** [type nodeAuth struct]: the key store, the node's own key pair and the
    configuration. *)
Record nodeAuth : Type := mkNodeAuth {
  publicKeys : keysAndHash;
  SignPrivateKey : bytes;
  SignPublicKey : bytes;
  auth_configuration : Configuration
}.

Definition ed25519_PublicKeySize : nat := 32.

(** [ed25519.Verify]: panics ([None]) on a key that is not
    [PublicKeySize] bytes long. *)
Definition ed25519_Verify `{Runtime} (publicKey message sig : bytes)
  : option bool :=
  if Nat.eqb (length publicKey) ed25519_PublicKeySize
  then Some (ed25519_verify publicKey message sig)
  else None.

(** [strings.Join] *)
Fixpoint strings_Join (elems : list string) (sep : string) : string :=
  match elems with
  | [] => ""
  | [e] => e
  | e :: rest => String.append e (String.append sep (strings_Join rest sep))
  end.

(** [argsToString] *)
Definition argsToString (args : list string) : string :=
  strings_Join args " ".

(** [verifySignature]; [None] is the panic of [ed25519.Verify]. *)
Definition verifySignature `{Runtime} (n : nodeAuth) (m : Message)
  : option bool :=
  if negb (EnableSignatureCheck (auth_configuration n)) then Some true
  else if negb (String.eqb (Method_ m) REQCliCommand) then Some true
  else
    let argsStringified := argsToString (MethodArgs m) in
    ed25519_Verify (SignPublicKey n) (String.list_byte_of_string argsStringified)
      (ArgSignature m).

(** The check as the specification words it: the key is the one stored for
    the sending node. A Go map yields the nil slice for a missing key. *)
Definition verifySignature_spec `{Runtime} (n : nodeAuth) (m : Message)
  : option bool :=
  if negb (EnableSignatureCheck (auth_configuration n)) then Some true
  else if negb (String.eqb (Method_ m) REQCliCommand) then Some true
  else
    ed25519_Verify (default [] (Keys (publicKeys n) !! FromNode m))
      (String.list_byte_of_string (argsToString (MethodArgs m))) (ArgSignature m).

(* ===================================================================== *)
(** ** Reply routing (requests file) *)
(* ===================================================================== *)

(** [newReplyMessage]: what it sends to the error kernel and to the ring
    buffer channel. *)
Definition newReplyMessage (proc : process) (message : Message)
  (outData : bytes) : list effect :=
  if String.eqb (ReplyMethod message) "REQNone" then []
  else
    let message :=
      if String.eqb (ReplyMethod message) ""
      then set_ReplyMethod REQToFileAppend message
      else message in
    let thisMsg := message in
    let thisMsg := set_Data [] thisMsg in
    let newMsg :=
      {| ToNode := FromNode message;
         ToNodes := [];
         ID := 0;
         Data := outData;
         Method_ := ReplyMethod message;
         MethodArgs := ReplyMethodArgs message;
         ArgSignature := [];
         ReplyMethod := "";
         ReplyMethodArgs := [];
         IsReply := true;
         FromNode := ToNode message;
         ACKTimeout := ReplyACKTimeout message;
         Retries := ReplyRetries message;
         ReplyACKTimeout := 0;
         ReplyRetries := 0;
         MethodTimeout := ReplyMethodTimeout message;
         ReplyMethodTimeout := 0;
         Directory := Directory message;
         FileName := FileName message;
         PreviousMessage := Some thisMsg |} in
    match newSubjectAndMessage newMsg with
    | Err err =>
        [ErrSend message (ErrReplySubject err message); ToRingBuffer [zeroSAM]]
    | Ok sam => [ToRingBuffer [sam]]
    end.

(** [filepath.Join] on a Unix path: the elements from the first non-empty
    one on, joined with the separator and cleaned; the empty path when all
    are empty. *)
Fixpoint filepath_Join `{Runtime} (elem : list string) : string :=
  match elem with
  | [] => ""
  | e :: rest =>
      if String.eqb e "" then filepath_Join rest
      else filepath_Clean (strings_Join elem "/")
  end.

(** [selectFileNaming]. A Go [switch] with no matching case leaves both
    results at the empty string. *)
Definition selectFileNaming `{Runtime} (message : Message) (proc : process)
  : string * string :=
  match PreviousMessage message with
  | None =>
      (FileName message,
       filepath_Join [SubscribersDataFolder (configuration proc);
                      Directory message; ToNode message])
  | Some prev =>
      if negb (String.eqb (ToNode prev) "") then
        (FileName prev,
         filepath_Join [SubscribersDataFolder (configuration proc);
                        Directory prev; ToNode prev])
      else if String.eqb (ToNode prev) "" then
        (FileName prev,
         filepath_Join [SubscribersDataFolder (configuration proc);
                        Directory prev; FromNode message])
      else ("", "")
  end.

(* ===================================================================== *)
(** ** Reference functions and fixtures *)
(* ===================================================================== *)

(** The fan-out as the specification words it, message by message: a
    message with a [ToNode] stays; otherwise there is one copy per listed
    node, with [ToNodes] cleared and [ToNode] set to that node. *)
Definition fanOut_spec (v : Message) : list Message :=
  if String.eqb (ToNode v) "" then
    map (fun n => set_ToNode n (set_ToNodes [] v)) (ToNodes v)
  else [v].

(** The errors of [checkMessageToNodes], message by message. *)
Definition fanOut_errors (v : Message) : list effect :=
  if String.eqb (ToNode v) "" then
    match ToNodes v with
    | [] => [ErrSend v (ErrNoToNodeOrToNodes v)]
    | _ => []
    end
  else [].

(** The method a reply is sent with: [ReplyMethod], or [REQToFileAppend]
    when it is empty. *)
Definition replyMethodOf (m : Message) : Method :=
  if String.eqb (ReplyMethod m) "" then REQToFileAppend else ReplyMethod m.

Fixpoint bytes_eqb (a b : bytes) : bool :=
  match a, b with
  | [], [] => true
  | x :: a, y :: b => Byte.eqb x y && bytes_eqb a b
  | _, _ => false
  end.

(** A runtime to evaluate the definitions with: the decoder yields a fixed
    batch and a fixed message, every handler answers "ok", a signature is
    valid when it is the key followed by the signed bytes, and the paths
    are clean already. *)
Definition fixedRuntime (batch : list Message) (decoded : Message) : Runtime :=
  {| yaml_Unmarshal := fun _ => Some batch;
     gobEncodeMessage := fun m => (String.list_byte_of_string (ToNode m), false);
     gobDecode := fun _ => (decoded, false);
     handler_run := fun _ _ _ _ => (String.list_byte_of_string "ok", false);
     ed25519_verify := fun pk msg sig => bytes_eqb sig (pk ++ msg);
     filepath_Clean := fun p => p |}.

Definition cliCommandTo (to from : Node) : Message :=
  {| ToNode := to; ToNodes := []; ID := 0; Data := [];
     Method_ := REQCliCommand; MethodArgs := ["bash"; "-c"; "tree ./"];
     ArgSignature := []; ReplyMethod := ""; ReplyMethodArgs := [];
     IsReply := false; FromNode := from; ACKTimeout := 1; Retries := 3;
     ReplyACKTimeout := 5; ReplyRetries := 3; MethodTimeout := 10;
     ReplyMethodTimeout := 10; Directory := "foo"; FileName := "bar.log";
     PreviousMessage := None |}.

Definition helloTo (to from : Node) : Message :=
  {| ToNode := to; ToNodes := []; ID := 0; Data := [];
     Method_ := REQHello; MethodArgs := [];
     ArgSignature := []; ReplyMethod := ""; ReplyMethodArgs := [];
     IsReply := false; FromNode := from; ACKTimeout := 1; Retries := 1;
     ReplyACKTimeout := 0; ReplyRetries := 0; MethodTimeout := 0;
     ReplyMethodTimeout := 0; Directory := ""; FileName := "";
     PreviousMessage := None |}.

Definition testConfiguration : Configuration := mkConfiguration true "var".

(** The process of the subject [(to, e, method)] that receives from the
    nodes of [allowed]. *)
Definition processFor (to : Node) (e : Event) (method : Method)
  (kind : string) (allowed : list Node) : process :=
  mkProcess (mkSubject to e method) to kind (list_to_set allowed)
    GetMethodsAvailable testConfiguration.

(** A startup batch: two messages to this node with no [FromNode], and one
    with it. *)
Definition blankCli : Message := cliCommandTo "self" "".
Definition blankHello : Message := helloTo "self" "".
Definition opsCli : Message := cliCommandTo "self" "ops".

(** The subscribers running on the node [self]. *)
Definition startupProcs : gmap string process :=
  list_to_map
    [ (processNameGet (Subject_name (mkSubject "self" EventACK REQCliCommand))
         processKindSubscriber,
       processFor "self" EventACK REQCliCommand processKindSubscriber ["*"]);
      (processNameGet (Subject_name (mkSubject "self" EventNACK REQHello))
         processKindSubscriber,
       processFor "self" EventNACK REQHello processKindSubscriber ["*"]) ].

(** The reply message as the specification words it: the fields of the
    claim, with a copy of the original that differs from it in [Data]
    alone as [PreviousMessage]. *)
Definition replyMessage_spec (m : Message) (d : bytes) : Message :=
  {| ToNode := FromNode m; ToNodes := []; ID := 0; Data := d;
     Method_ := replyMethodOf m; MethodArgs := ReplyMethodArgs m;
     ArgSignature := []; ReplyMethod := ""; ReplyMethodArgs := [];
     IsReply := true; FromNode := ToNode m;
     ACKTimeout := ReplyACKTimeout m; Retries := ReplyRetries m;
     ReplyACKTimeout := 0; ReplyRetries := 0;
     MethodTimeout := ReplyMethodTimeout m; ReplyMethodTimeout := 0;
     Directory := Directory m; FileName := FileName m;
     PreviousMessage := Some (set_Data [] m) |}.

(** Two keys of the right size, and a node that holds the first as its own
    public key and the second as the key of the node [central]. *)
Definition keyOfShip : bytes := repeat Byte.x01 32.
Definition keyOfCentral : bytes := repeat Byte.x02 32.

Definition shipAuth : nodeAuth :=
  {| publicKeys := mkKeysAndHash {[ "central" := keyOfCentral ]} [];
     SignPrivateKey := [];
     SignPublicKey := keyOfShip;
     auth_configuration := testConfiguration |}.

(** A command from [central] whose arguments are signed with the key of
    [central] (for the signatures of [fixedRuntime]). *)
Definition signedByCentral : Message :=
  {| ToNode := "ship1"; ToNodes := []; ID := 0; Data := [];
     Method_ := REQCliCommand; MethodArgs := ["bash"; "-c"; "tree ./"];
     ArgSignature :=
       keyOfCentral ++ String.list_byte_of_string "bash -c tree ./";
     ReplyMethod := ""; ReplyMethodArgs := [];
     IsReply := false; FromNode := "central"; ACKTimeout := 1; Retries := 3;
     ReplyACKTimeout := 5; ReplyRetries := 3; MethodTimeout := 10;
     ReplyMethodTimeout := 10; Directory := "foo"; FileName := "bar.log";
     PreviousMessage := None |}.

(** What every publish of the loop for [message] on [proc] looks like: the
    subject of the process, its reply inbox, and the encoding of that one
    message. *)
Definition carries `{Runtime} (proc : process) (message : Message)
  (e : effect) : Prop :=
  match e with
  | PublishMsg subj reply data _ =>
      subj = Subject_name (subject proc)
      /\ reply = String.append "reply." (Subject_name (subject proc))
      /\ data = fst (gobEncodeMessage message)
  | _ => True
  end.

(** A publisher towards [ship1] for an ACK method and for a NACK method. *)
Definition ackPublisher : process :=
  processFor "ship1" EventACK REQCliCommand processKindPublisher [].
Definition nackPublisher : process :=
  processFor "central" EventNACK REQHello processKindPublisher [].

(** Subscribers on [central]: one for hello messages (a NACK method) that
    receives from [ship1] alone, one for commands that receives from all. *)
Definition helloSubscriber : process :=
  processFor "central" EventNACK REQHello processKindSubscriber ["ship1"].
Definition cliSubscriber : process :=
  processFor "central" EventACK REQCliCommand processKindSubscriber ["*"].

(** A message that asks for a method outside the request table. *)
Definition unknownMethodTo (to from : Node) : Message :=
  {| ToNode := to; ToNodes := []; ID := 0; Data := [];
     Method_ := "REQNoSuchMethod"; MethodArgs := [];
     ArgSignature := []; ReplyMethod := ""; ReplyMethodArgs := [];
     IsReply := false; FromNode := from; ACKTimeout := 1; Retries := 1;
     ReplyACKTimeout := 0; ReplyRetries := 0; MethodTimeout := 0;
     ReplyMethodTimeout := 0; Directory := ""; FileName := "";
     PreviousMessage := None |}.

(** A command for two nodes, with no [ToNode] of its own. *)
Definition cliCommandToBoth : Message :=
  set_ToNodes ["ship1"; "ship2"] (cliCommandTo "" "central").

(** More sorts of effects to count. *)
Definition is_Publish (e : effect) : bool :=
  match e with Publish _ _ => true | _ => false end.
Definition is_SendErrorLog (e : effect) : bool :=
  match e with SendErrorLog _ => true | _ => false end.
Definition is_ErrSend (e : effect) : bool :=
  match e with ErrSend _ _ => true | _ => false end.
Definition is_ToRingBuffer (e : effect) : bool :=
  match e with ToRingBuffer _ => true | _ => false end.
Definition is_dispatch_miss (e : effect) : bool :=
  match e with
  | Log (LogMethodNotAvailable _) | Log (LogUnknownKind _) => true
  | _ => false
  end.

(** Reference functions for the readers: whether a message passes
    [newSubjectAndMessage], what it contributes to the result of
    [convertBytesToSAMs], whether it has neither [ToNode] nor [ToNodes],
    and whether a startup message finds a running subscriber that knows
    its method. *)
Definition validMessage (m : Message) : bool :=
  match newSubjectAndMessage m with Ok _ => true | Err _ => false end.

Definition samOf (m : Message) : list subjectAndMessage :=
  match newSubjectAndMessage m with Ok sm => [sm] | Err _ => [] end.

Definition conversionError (m : Message) : list effect :=
  match newSubjectAndMessage m with
  | Ok _ => []
  | Err err => [ErrSend m (ErrNewSubjectAndMessage err)]
  end.

Definition unaddressed (v : Message) : bool :=
  String.eqb (ToNode v) "" && Nat.eqb (length (ToNodes v)) 0.

Definition blankFromNode (sam : subjectAndMessage) : bool :=
  String.eqb (FromNode (sam_Message sam)) "".

Definition startupHandled (procNames : gmap string process)
  (sam : subjectAndMessage) : bool :=
  match procNames !! processNameGet (Subject_name (sam_Subject sam))
                        processKindSubscriber with
  | Some p =>
      bool_decide (is_Some (Methodhandlers (methodsAvailable p)
                              !! Method_ (sam_Message sam)))
  | None => false
  end.

(* ===================================================================== *)
(** ** The socket, TCP and HTTP readers ([message_readers.go]) *)
(* ===================================================================== *)

Definition set_FromNode (n : Node) (m : Message) : Message :=
  mkMessage (ToNode m) (ToNodes m) (ID m) (Data m) (Method_ m) (MethodArgs m)
    (ArgSignature m) (ReplyMethod m) (ReplyMethodArgs m) (IsReply m)
    n (ACKTimeout m) (Retries m) (ReplyACKTimeout m)
    (ReplyRetries m) (MethodTimeout m) (ReplyMethodTimeout m) (Directory m)
    (FileName m) (PreviousMessage m).

(** One call of [Read] on the connection or the request body: the bytes it
    put at the start of the buffer, and whether it returned no error,
    [io.EOF] or another error. *)
Inductive readStatus : Type := ReadMore | ReadEOF | ReadFailed.

Record readCall : Type := mkRead {
  got : bytes;
  status : readStatus
}.

(** [b := make([]byte, 1500)] after the call: what was read, then the zero
    bytes the buffer was made with. *)
Definition bufferSize : nat := 1500.

Definition bufferAfter (c : readCall) : bytes :=
  take bufferSize (got c) ++ repeat Byte.x00 (bufferSize - length (got c)).

(** The read loop of the three readers: the whole buffer is appended after
    every call; an error other than [io.EOF] ends the reader, [io.EOF]
    ends the loop. [ReadPending] is the loop waiting in the next [Read]. *)
Inductive readEnd : Type :=
| ReadDone (readBytes : bytes)
| ReadError
| ReadPending (readBytes : bytes).

Fixpoint readLoop (calls : list readCall) (readBytes : bytes) : readEnd :=
  match calls with
  | [] => ReadPending readBytes
  | c :: calls =>
      match status c with
      | ReadFailed => ReadError
      | ReadMore => readLoop calls (readBytes ++ bufferAfter c)
      | ReadEOF => ReadDone (readBytes ++ bufferAfter c)
      end
  end.

(** What a reader does with the error kernel and the ring buffer. The
    errors sent from inside [convertBytesToSAMs] are carried over. *)
Inductive ingressEvent : Type :=
| IngressReadFailed
| IngressMalformed
| IngressConverted (e : effect)
| IngressAudit (nodeName : string) (m : Message)
| IngressToRingBuffer (sams : list subjectAndMessage).

(** [sams[i].Message.FromNode = Node(s.nodeName)] *)
Definition stampAt (nodeName : string) (i : nat)
  (sams : list subjectAndMessage) : list subjectAndMessage :=
  alter (fun sam => mkSAM (sam_Subject sam)
                      (set_FromNode nodeName (sam_Message sam))) i sams.

(** The loop [for i := range sams] of the readers; [audit] is set for
    [readSocket], which also reports every message it picked up. *)
Definition stampLoop_body (audit : bool) (nodeName : string)
  (st : list subjectAndMessage * list ingressEvent) (i : nat)
  : list subjectAndMessage * list ingressEvent :=
  let '(sams, evs) := st in
  let sams := stampAt nodeName i sams in
  let evs :=
    if audit then
      match sams !! i with
      | Some sam => evs ++ [IngressAudit nodeName (sam_Message sam)]
      | None => evs
      end
    else evs in
  (sams, evs).

Definition stampLoop (audit : bool) (nodeName : string)
  (sams : list subjectAndMessage)
  : list subjectAndMessage * list ingressEvent :=
  fold_left (stampLoop_body audit nodeName) (seq 0 (length sams)) (sams, []).

(** The handler of one connection ([readSocket], [readTCPListener]) or one
    request ([readHTTPlistenerHandler]), from the first [Read] on. [None]
    is the handler still waiting in [Read]. *)
Definition readIngress `{Runtime} (audit : bool) (nodeName : string)
  (calls : list readCall) : option (list ingressEvent) :=
  match readLoop calls [] with
  | ReadPending _ => None
  | ReadError => Some [IngressReadFailed]
  | ReadDone readBytes =>
      let readBytes := bytes_Trim_x00 readBytes in
      match convertBytesToSAMs readBytes with
      | (Err _, log) => Some (map IngressConverted log ++ [IngressMalformed])
      | (Ok sams, log) =>
          let '(sams, evs) := stampLoop audit nodeName sams in
          Some (map IngressConverted log ++ evs ++ [IngressToRingBuffer sams])
      end
  end.

Definition readSocket_conn `{Runtime} := readIngress true.
Definition readTCPListener_conn `{Runtime} := readIngress false.
Definition readHTTPlistenerHandler `{Runtime} := readIngress false.


Definition is_IngressToRingBuffer (e : ingressEvent) : bool :=
  match e with IngressToRingBuffer _ => true | _ => false end.

(** What the stamping loop makes of one element. *)
Definition stamped (nodeName : string) (sam : subjectAndMessage)
  : subjectAndMessage :=
  mkSAM (sam_Subject sam) (set_FromNode nodeName (sam_Message sam)).

(** What can be said of every element that leaves [convertBytesToSAMs]. *)
Definition wellAddressed (sam : subjectAndMessage) : Prop :=
  ToNode (sam_Message sam) <> ""
  /\ is_Some (getHandler (Method_ (sam_Message sam)))
  /\ Subject_ToNode (sam_Subject sam) = ToNode (sam_Message sam)
  /\ Subject_Method (sam_Subject sam) = Method_ (sam_Message sam).

(* ===================================================================== *)
(** ** More of the requests file *)
(* ===================================================================== *)

(** [GetReplyMethods] *)
Definition GetReplyMethods : list Method :=
  ["REQToConsole"; "REQTuiToConsole"; REQCliCommand; REQCliCommandCont;
   REQToFile; REQToFileAppend; REQNone].



Definition set_MethodArgs (args : list string) (m : Message) : Message :=
  mkMessage (ToNode m) (ToNodes m) (ID m) (Data m) (Method_ m) args
    (ArgSignature m) (ReplyMethod m) (ReplyMethodArgs m) (IsReply m)
    (FromNode m) (ACKTimeout m) (Retries m) (ReplyACKTimeout m)
    (ReplyRetries m) (MethodTimeout m) (ReplyMethodTimeout m) (Directory m)
    (FileName m) (PreviousMessage m).

(* ===================================================================== *)
(** ** Processes and the publisher worker ([process.go]) *)
(* ===================================================================== *)

(** [type process struct] as [process.go] has it, with the counters that
    the record [process] above leaves out ([errorCh] is a channel). *)
Record worker : Type := mkWorker {
  messageID : Z;
  worker_subject : Subject;
  worker_node : Node;
  processID : Z;
  worker_processKind : string;
  worker_allowedReceivers : gset string
}.

(** The zero value, which a lookup in [s.processes] gives for a missing
    name. *)
Definition zeroWorker : worker := mkWorker 0 zeroSubject "" 0 "" ∅.

(** The fields of [server] that the functions below read and write. *)
Record server : Type := mkServer {
  lastProcessID : Z;
  processes : gmap string worker
}.

(** [newProcess]: the new process and the server with its counter moved. *)
Definition newProcess (s : server) (subject : Subject) (processKind : string)
  (allowedReceivers : list Node) : worker * server :=
  let s := mkServer (wrap_int (lastProcessID s + 1)) (processes s) in
  let m := fold_left (fun (m : gset string) a => {[a]} ∪ m) allowedReceivers ∅ in
  let proc :=
    {| messageID := 0;
       worker_subject := subject;
       worker_node := Subject_ToNode subject;
       processID := lastProcessID s;
       worker_processKind := processKind;
       worker_allowedReceivers := m |} in
  (proc, s).

(** [spawnWorker] up to the start of the worker: the name is taken from
    the kind, and the process is stored under it. *)
Definition spawnWorker_name (p : worker) : string :=
  let pn := "" in
  let pn :=
    if String.eqb (worker_processKind p) processKindPublisher
    then processNameGet (Subject_name (worker_subject p)) processKindPublisher
    else pn in
  let pn :=
    if String.eqb (worker_processKind p) processKindSubscriber
    then processNameGet (Subject_name (worker_subject p)) processKindSubscriber
    else pn in
  pn.

Definition spawnWorker_register (p : worker) (s : server) : server :=
  mkServer (lastProcessID s) (<[spawnWorker_name p := p]> (processes s)).

(** The process as the delivery loop sees it: the loop reads the subject and
    the node, which both records have. *)
Definition worker_process (p : worker) : process :=
  mkProcess (worker_subject p) (worker_node p) (worker_processKind p)
    (worker_allowedReceivers p) (mkMethodsAvailable ∅) (mkConfiguration false "").

Definition set_ID (id : Z) (m : Message) : Message :=
  mkMessage (ToNode m) (ToNodes m) id (Data m) (Method_ m) (MethodArgs m)
    (ArgSignature m) (ReplyMethod m) (ReplyMethodArgs m) (IsReply m)
    (FromNode m) (ACKTimeout m) (Retries m) (ReplyACKTimeout m)
    (ReplyRetries m) (MethodTimeout m) (ReplyMethodTimeout m) (Directory m)
    (FileName m) (PreviousMessage m).

Definition set_messageID (id : Z) (p : worker) : worker :=
  mkWorker id (worker_subject p) (worker_node p) (processID p)
    (worker_processKind p) (worker_allowedReceivers p).

(** [publishMessages], run on the messages that arrive on the channel of
    the subject, each with what the broker answers while it is delivered.
    The result lists the messages handed to [messageDeliverNats], with the
    ID they were given and how the delivery went; the loop stands still in
    a delivery that does not return. Whatever the error kernel answers to
    the report at the end of a turn, the loop goes on. *)
Fixpoint publishMessages `{Runtime} (p : worker) (s : server)
  (jobs : list (Message * list brokerTurn))
  : list (Message * delivery) * worker * server :=
  match jobs with
  | [] => ([], p, s)
  | (m, answers) :: jobs =>
      let pn := processNameGet (Subject_name (worker_subject p))
                  processKindPublisher in
      let m := set_ID (messageID (default zeroWorker (processes s !! pn))) m in
      let d := messageDeliverNats (worker_process p) m answers in
      match d with
      | StillTrying _ _ => ([(m, d)], p, s)
      | Delivered _ =>
          let p := set_messageID (wrap_int (messageID p + 1)) p in
          let s := mkServer (lastProcessID s) (<[pn := p]> (processes s)) in
          let '(out, p, s) := publishMessages p s jobs in
          ((m, d) :: out, p, s)
      end
  end.

(** A new publisher for [ship1] on a fresh server, as [spawnWorker] stores
    it. *)
Definition freshServer : server := mkServer 0 ∅.
Definition shipSubject : Subject := mkSubject "ship1" EventACK REQCliCommand.

(** A log with no call to the broker in it. *)
Definition quiet (log : list effect) : Prop :=
  Forall (fun e => is_broker e = false) log.

(* ===================================================================== *)
(** ** Counting effects *)
(* ===================================================================== *)

Lemma count_app (f : effect -> bool) (a b : list effect) :
  count f (a ++ b) = (count f a + count f b)%nat.
Proof. unfold count. by rewrite List.filter_app, length_app. Qed.

Lemma count_nil (f : effect -> bool) : count f [] = 0%nat.
Proof. reflexivity. Qed.

Lemma count_cons (f : effect -> bool) (e : effect) (l : list effect) :
  count f (e :: l) = ((if f e then 1 else 0) + count f l)%nat.
Proof. unfold count. simpl. by destruct (f e). Qed.

(** Rewriting the count of a log that ends in explicit effects. *)
Ltac count_log :=
  repeat rewrite count_app;
  repeat rewrite count_cons;
  repeat rewrite count_nil;
  cbn [is_PublishMsg_ok is_PublishMsg_failed is_PublishMsg is_SubscribeSync
       is_SubscribeSync_ok is_NextMsg is_HandlerCall is_broker].

(* ===================================================================== *)
(** ** Properties of the message readers *)
(* ===================================================================== *)

Lemma String_eqb_empty (s : string) : String.eqb s "" = true <-> s = "".
Proof. apply String.eqb_eq. Qed.

Lemma String_eqb_nonempty (s : string) : String.eqb s "" = false <-> s <> "".
Proof. apply String.eqb_neq. Qed.

Lemma fold_left_append_map {A B : Type} (f : A -> B) (l : list A) (acc : list B) :
  fold_left (fun acc a => acc ++ [f a]) l acc = acc ++ map f l.
Proof.
  revert acc. induction l as [|a l IH]; intros acc; simpl.
  - by rewrite app_nil_r.
  - rewrite IH. by rewrite <- app_assoc.
Qed.

Lemma checkMessageToNodes_body_spec (msgs : list Message) (errs : list effect)
  (v : Message) :
  checkMessageToNodes_body (msgs, errs) v =
    (msgs ++ fanOut_spec v, errs ++ fanOut_errors v).
Proof.
  unfold checkMessageToNodes_body, fanOut_spec, fanOut_errors.
  destruct (String.eqb (ToNode v) "") eqn:Hto; simpl.
  - destruct (ToNodes v) as [|n ns] eqn:Hns; simpl.
    + by rewrite !app_nil_r.
    + rewrite app_nil_r.
      rewrite (fold_left_append_map (fun n => set_ToNode n (set_ToNodes [] v))).
      simpl. by rewrite <- app_assoc.
  - by rewrite app_nil_r.
Qed.

Lemma checkMessageToNodes_fold (l : list Message) (msgs : list Message)
  (errs : list effect) :
  fold_left checkMessageToNodes_body l (msgs, errs) =
    (msgs ++ flat_map fanOut_spec l, errs ++ flat_map fanOut_errors l).
Proof.
  revert msgs errs.
  induction l as [|v l IH]; intros msgs errs; cbn [fold_left flat_map].
  - by rewrite !app_nil_r.
  - rewrite checkMessageToNodes_body_spec, IH. by rewrite <- !app_assoc.
Qed.

Lemma checkMessageToNodes_flat_map (l : list Message) :
  checkMessageToNodes l = (flat_map fanOut_spec l, flat_map fanOut_errors l).
Proof. unfold checkMessageToNodes. by rewrite checkMessageToNodes_fold. Qed.

Lemma set_ToNode_inj (v : Message) (a b : Node) :
  set_ToNode a (set_ToNodes [] v) = set_ToNode b (set_ToNodes [] v) -> a = b.
Proof. intros E. by apply (f_equal ToNode) in E. Qed.

(** C6. [checkMessageToNodes] works message by message and keeps the order
    of the batch. A message with a non-empty [ToNode] is kept as it is,
    whatever its [ToNodes]. A message with an empty [ToNode] becomes one
    message per node of [ToNodes]: as many as the list is long, the i-th
    with [ToNode] the i-th node, [ToNodes] nil and every other field that
    of the original, and pairwise different when the listed nodes are. A
    message with neither field gives no message and one error. *)
Theorem checkMessageToNodes_fan_out :
  forall (before after : list Message) (v : Message),
  exists out : list Message,
    fst (checkMessageToNodes (before ++ v :: after)) =
      fst (checkMessageToNodes before) ++ out
        ++ fst (checkMessageToNodes after)
    /\ (ToNode v <> "" -> out = [v])
    /\ (ToNode v = "" ->
          length out = length (ToNodes v)
          /\ (forall (i : nat) (n : Node), ToNodes v !! i = Some n ->
                exists m, out !! i = Some m
                  /\ ToNode m = n /\ ToNodes m = []
                  /\ m = set_ToNode n (set_ToNodes [] v)
                  /\ Method_ m = Method_ v /\ Data m = Data v
                  /\ FromNode m = FromNode v
                  /\ MethodArgs m = MethodArgs v)
          /\ (NoDup (ToNodes v) -> NoDup out))
    /\ (ToNode v = "" -> ToNodes v = [] ->
          out = []
          /\ In (ErrSend v (ErrNoToNodeOrToNodes v))
               (snd (checkMessageToNodes (before ++ v :: after)))).
Proof.
  intros before after v. exists (fanOut_spec v).
  rewrite !checkMessageToNodes_flat_map. simpl.
  rewrite !flat_map_app. simpl.
  split; [reflexivity|].
  unfold fanOut_spec, fanOut_errors.
  split; [|split].
  - intros Hne. apply String_eqb_nonempty in Hne. by rewrite Hne.
  - intros He. apply String_eqb_empty in He. rewrite He.
    split; [by rewrite length_map|]. split.
    + intros i n Hi. eexists. split.
      * rewrite list_lookup_fmap, Hi. reflexivity.
      * repeat split; reflexivity.
    + intros Hnd.
      assert (Hinj : Inj (=) (=) (fun n => set_ToNode n (set_ToNodes [] v))).
      { intros a b. apply set_ToNode_inj. }
      by apply (NoDup_fmap_2 (fun n => set_ToNode n (set_ToNodes [] v))).
  - intros He Hns. apply String_eqb_empty in He. rewrite He, Hns. simpl.
    split; [reflexivity|]. apply in_or_app. right. simpl. by left.
Qed.

Lemma getHandler_empty : getHandler "" = None.
Proof. vm_compute. reflexivity. Qed.

Lemma newSubjectAndMessage_Ok_inv (m : Message) (sam : subjectAndMessage) :
  newSubjectAndMessage m = Ok sam ->
  ToNode m <> "" /\ sam_Message sam = m
  /\ exists h, getHandler (Method_ m) = Some h
       /\ sam_Subject sam = mkSubject (ToNode m) (event h) (Method_ m).
Proof.
  unfold newSubjectAndMessage.
  destruct (getHandler (Method_ m)) as [h|] eqn:Hh; [|discriminate].
  destruct (String.eqb (ToNode m) "") eqn:Hto; [discriminate|].
  destruct (String.eqb (Method_ m) "") eqn:Hme; [discriminate|].
  intros [= <-]. simpl. apply String_eqb_nonempty in Hto.
  split; [exact Hto|]. split; [reflexivity|]. by exists h.
Qed.

Lemma convertBytesToSAMs_fold_from (l : list Message)
  (sams : list subjectAndMessage) (errs : list effect) (P : subjectAndMessage -> Prop) :
  Forall P sams ->
  (forall m sam, newSubjectAndMessage m = Ok sam -> P sam) ->
  Forall P (fst (fold_left convertBytesToSAMs_body l (sams, errs))).
Proof.
  intros Hs HP. revert sams errs Hs.
  induction l as [|m l IH]; intros sams errs Hs; cbn [fold_left]; [exact Hs|].
  destruct (convertBytesToSAMs_body (sams, errs) m) as [sams' errs'] eqn:Hb.
  unfold convertBytesToSAMs_body in Hb.
  destruct (newSubjectAndMessage m) as [sm|e] eqn:Hm; injection Hb as <- <-.
  - apply IH. apply Forall_app. split; [exact Hs|].
    constructor; [|constructor]. by apply (HP m).
  - by apply IH.
Qed.

(** C7. [newSubjectAndMessage] fails exactly when [ToNode] is empty or the
    method has no entry in the request table; otherwise the subject it
    returns is [(ToNode, the event of the method's entry, Method)] and the
    message is the one given. So every element that [convertBytesToSAMs]
    returns has a non-empty [ToNode] and a method of the table. *)
Theorem newSubjectAndMessage_validates `{Runtime} :
  (forall m : Message,
     (exists e, newSubjectAndMessage m = Err e) <->
     (ToNode m = "" \/ getHandler (Method_ m) = None))
  /\ (forall (m : Message) (h : methodHandler),
        ToNode m <> "" -> getHandler (Method_ m) = Some h ->
        newSubjectAndMessage m =
          Ok (mkSAM (mkSubject (ToNode m) (getKind h) (Method_ m)) m))
  /\ (forall (b : bytes) (sams : list subjectAndMessage) (log : list effect),
        convertBytesToSAMs b = (Ok sams, log) ->
        forall sam, In sam sams ->
          ToNode (sam_Message sam) <> ""
          /\ is_Some (getHandler (Method_ (sam_Message sam)))
          /\ Subject_ToNode (sam_Subject sam) = ToNode (sam_Message sam)
          /\ Subject_Method (sam_Subject sam) = Method_ (sam_Message sam)).
Proof.
  split; [|split].
  - intros m. unfold newSubjectAndMessage. split.
    + intros [e He].
      destruct (getHandler (Method_ m)) as [h|] eqn:Hh; [|by right].
      destruct (String.eqb (ToNode m) "") eqn:Hto.
      * left. by apply String_eqb_empty.
      * destruct (String.eqb (Method_ m) "") eqn:Hme; [|discriminate].
        apply String_eqb_empty in Hme. rewrite Hme, getHandler_empty in Hh.
        discriminate.
    + intros [Hto|Hh].
      * destruct (getHandler (Method_ m)) as [h|]; [|by eexists].
        apply String_eqb_empty in Hto. rewrite Hto. by eexists.
      * rewrite Hh. by eexists.
  - intros m h Hto Hh. unfold newSubjectAndMessage. rewrite Hh.
    apply String_eqb_nonempty in Hto. rewrite Hto.
    destruct (String.eqb (Method_ m) "") eqn:Hme; [|reflexivity].
    apply String_eqb_empty in Hme. rewrite Hme, getHandler_empty in Hh.
    discriminate.
  - intros b sams log Hc sam Hin. unfold convertBytesToSAMs in Hc.
    destruct (yaml_Unmarshal b) as [MsgSlice|]; [|discriminate].
    destruct (checkMessageToNodes MsgSlice) as [msgs errs].
    destruct (fold_left convertBytesToSAMs_body msgs ([], errs)) as [sam' errs'] eqn:Hf.
    injection Hc as <- <-.
    pose proof (convertBytesToSAMs_fold_from msgs [] errs
      (fun sam => ToNode (sam_Message sam) <> ""
          /\ is_Some (getHandler (Method_ (sam_Message sam)))
          /\ Subject_ToNode (sam_Subject sam) = ToNode (sam_Message sam)
          /\ Subject_Method (sam_Subject sam) = Method_ (sam_Message sam))) as HF.
    rewrite Hf in HF. simpl in HF.
    assert (Hall : Forall (fun sam => ToNode (sam_Message sam) <> ""
          /\ is_Some (getHandler (Method_ (sam_Message sam)))
          /\ Subject_ToNode (sam_Subject sam) = ToNode (sam_Message sam)
          /\ Subject_Method (sam_Subject sam) = Method_ (sam_Message sam)) sam').
    { apply HF; [constructor|].
      intros m s Hs. apply newSubjectAndMessage_Ok_inv in Hs.
      destruct Hs as (Hto & Hm & h & Hh & Hsub).
      rewrite Hm, Hsub. cbn [Subject_ToNode Subject_Method].
      split; [exact Hto|]. split; [by exists h|]. by split. }
    rewrite List.Forall_forall in Hall. by apply Hall.
Qed.

(** The removal loop of [readStartupFolder] steps over the element that
    moves into the place of a removed one. *)
Lemma removeBlankFromNode_skips_neighbour :
  removeBlankFromNode 2 0
    [mkSAM zeroSubject blankCli; mkSAM zeroSubject blankHello] [] =
  Returned [mkSAM zeroSubject blankHello]
    [ErrSend zeroMessage ErrMissingFromField].
Proof. reflexivity. Qed.

(** The range of the loop is the length the batch had at the start: with a
    removal early on and one at the end, the index runs past the end. *)
Lemma removeBlankFromNode_index_out_of_range :
  removeBlankFromNode 3 0
    [mkSAM zeroSubject blankCli; mkSAM zeroSubject opsCli;
     mkSAM zeroSubject blankHello] [] =
  Panicked (IndexOutOfRange 2 1)
    [ErrSend zeroMessage ErrMissingFromField;
     ErrSend zeroMessage ErrMissingFromField].
Proof. reflexivity. Qed.

(** C9, at a batch of two messages that both lack [FromNode]: one error is
    reported and the first message removed, the second stays in the batch
    and its handler is called. No broker call is made. *)
Theorem readStartupFolder_blank_FromNode_handled :
  @readStartupFile (fixedRuntime [blankCli; blankHello] zeroMessage)
    startupProcs "self" [] =
    Returned tt
      [ErrSend zeroMessage ErrMissingFromField;
       HandlerCall (mkHandler "methodREQHello" EventNACK) blankHello "self"]
  /\ FromNode blankHello = "".
Proof. split; vm_compute; reflexivity. Qed.

Lemma take_eq_le {A : Type} (a b : list A) (i j : nat) :
  (i <= j)%nat -> take j a = take j b -> take i a = take i b.
Proof.
  intros Hij E.
  assert (E' : take i (take j a) = take i (take j b)) by (by rewrite E).
  rewrite !take_take in E'. by rewrite Nat.min_l in E' by lia.
Qed.

(** The loop never looks back: what lies below the index stays. *)
Lemma removeBlankFromNode_prefix (turns : nat) :
  forall (i : nat) (sams : list subjectAndMessage) (log : list effect)
         (sams' : list subjectAndMessage) (log' : list effect),
    removeBlankFromNode turns i sams log = Returned sams' log' ->
    take i sams' = take i sams.
Proof.
  induction turns as [|turns IH]; intros i sams log sams' log' Hr; simpl in Hr.
  - by injection Hr as <- <-.
  - destruct (sams !! i) as [x|] eqn:Hx; [|discriminate].
    apply lookup_lt_Some in Hx.
    destruct (String.eqb (FromNode (sam_Message x)) "").
    + assert (Hk : take i (take i sams ++ drop (S i) sams) = take i sams).
      { rewrite take_app_le by (rewrite length_take; lia).
        rewrite take_take. f_equal. lia. }
      destruct (Z.of_nat i =? Z.of_nat (length (take i sams ++ drop (S i) sams)) - 1)%Z.
      * injection Hr as <- <-. exact Hk.
      * apply IH in Hr. rewrite <- Hk.
        apply (take_eq_le _ _ i (S i)); [lia|exact Hr].
    + destruct (Z.of_nat i =? Z.of_nat (length sams) - 1)%Z.
      * by injection Hr as <- <-.
      * apply IH in Hr. apply (take_eq_le _ _ i (S i)); [lia|exact Hr].
Qed.

Lemma removeBlankFromNode_turn (turns i : nat)
  (sams : list subjectAndMessage) (log : list effect) :
  removeBlankFromNode (S turns) i sams log =
    match sams !! i with
    | None => Panicked (IndexOutOfRange i (length sams)) log
    | Some x =>
        let '(sams, log) :=
          if String.eqb (FromNode (sam_Message x)) "" then
            (take i sams ++ drop (S i) sams,
             log ++ [ErrSend zeroMessage ErrMissingFromField])
          else (sams, log) in
        if (Z.of_nat i =? Z.of_nat (length sams) - 1)%Z then Returned sams log
        else removeBlankFromNode turns (S i) sams log
    end.
Proof. reflexivity. Qed.

(** Whenever the first two messages of a batch both lack [FromNode] and the
    loop returns, the second of them is still in the batch, at its head. *)
Lemma removeBlankFromNode_second_blank_stays
  (a b : subjectAndMessage) (rest : list subjectAndMessage)
  (sams' : list subjectAndMessage) (log' : list effect) :
  FromNode (sam_Message a) = "" ->
  removeBlankFromNode (length (a :: b :: rest)) 0 (a :: b :: rest) [] =
    Returned sams' log' ->
  head sams' = Some b.
Proof.
  intros Ha Hr.
  change (length (a :: b :: rest)) with (S (length (b :: rest))) in Hr.
  rewrite removeBlankFromNode_turn in Hr.
  change ((a :: b :: rest) !! 0%nat) with (Some a) in Hr. cbv iota beta in Hr.
  rewrite Ha in Hr. change (String.eqb "" "") with true in Hr.
  cbv iota beta in Hr.
  change (take 0 (a :: b :: rest) ++ drop 1 (a :: b :: rest)) with (b :: rest) in Hr.
  destruct (Z.of_nat 0 =? Z.of_nat (length (b :: rest)) - 1)%Z.
  - by injection Hr as <- <-.
  - apply removeBlankFromNode_prefix in Hr.
    destruct sams' as [|s sams']; [discriminate|].
    simpl in Hr. injection Hr as ->. reflexivity.
Qed.

Lemma quiet_count (log : list effect) : quiet log -> count is_broker log = 0%nat.
Proof.
  induction 1 as [|e l He _ IH]; [reflexivity|].
  rewrite count_cons, He, IH. reflexivity.
Qed.

Lemma quiet_snoc (log : list effect) (e : effect) :
  quiet log -> is_broker e = false -> quiet (log ++ [e]).
Proof. intros Hl He. apply Forall_app. split; [exact Hl|]. by repeat constructor. Qed.

Lemma checkMessageToNodes_quiet (l : list Message) :
  quiet (snd (checkMessageToNodes l)).
Proof.
  rewrite checkMessageToNodes_flat_map. cbn [snd].
  induction l as [|v l IH]; [constructor|].
  cbn [flat_map]. apply Forall_app. split; [|exact IH].
  unfold fanOut_errors.
  destruct (String.eqb (ToNode v) ""); [|constructor].
  destruct (ToNodes v); by repeat constructor.
Qed.

Lemma convertBytesToSAMs_quiet `{Runtime} (b : bytes) :
  quiet (snd (convertBytesToSAMs b)).
Proof.
  unfold convertBytesToSAMs.
  destruct (yaml_Unmarshal b) as [MsgSlice|]; [|constructor].
  pose proof (checkMessageToNodes_quiet MsgSlice) as Hq.
  destruct (checkMessageToNodes MsgSlice) as [msgs errs]. cbn [snd] in Hq.
  assert (Hfold : forall l sams errs,
            quiet errs -> quiet (snd (fold_left convertBytesToSAMs_body l (sams, errs)))).
  { induction l as [|m l IH]; intros sams errs0 H0; [exact H0|].
    cbn [fold_left].
    destruct (convertBytesToSAMs_body (sams, errs0) m) as [sams' errs'] eqn:Hb.
    unfold convertBytesToSAMs_body in Hb.
    destruct (newSubjectAndMessage m); injection Hb as <- <-; apply IH.
    - exact H0.
    - by apply quiet_snoc. }
  specialize (Hfold msgs [] errs Hq).
  destruct (fold_left convertBytesToSAMs_body msgs ([], errs)) as [sam errs'].
  exact Hfold.
Qed.

Lemma removeBlankFromNode_quiet (turns : nat) :
  forall (i : nat) (sams : list subjectAndMessage) (log : list effect),
    quiet log ->
    match removeBlankFromNode turns i sams log with
    | Returned _ log' | Panicked _ log' => quiet log'
    end.
Proof.
  induction turns as [|turns IH]; intros i sams log Hq; [exact Hq|].
  rewrite removeBlankFromNode_turn.
  destruct (sams !! i) as [x|]; [|exact Hq].
  destruct (String.eqb (FromNode (sam_Message x)) "").
  - destruct (Z.of_nat i =? _)%Z; [by apply quiet_snoc|].
    apply IH. by apply quiet_snoc.
  - destruct (Z.of_nat i =? _)%Z; [exact Hq|]. by apply IH.
Qed.

Lemma handleStartupSAM_quiet `{Runtime} (procNames : gmap string process)
  (nodeName : string) (log : list effect) (sam : subjectAndMessage) :
  quiet log -> quiet (handleStartupSAM procNames nodeName log sam).
Proof.
  intros Hq. unfold handleStartupSAM.
  destruct (CheckIfExists _ _) as [[mh|] [|]]; try by apply quiet_snoc.
  destruct (handler_run _ _ _ _) as [out [|]].
  - apply quiet_snoc; [|reflexivity]. by apply quiet_snoc.
  - by apply quiet_snoc.
Qed.

(** The part of C9 that holds: whatever the file holds and however the call
    ends, no call to the broker is made on the startup path. *)
Lemma readStartupFile_no_broker `{Runtime} (procNames : gmap string process)
  (nodeName : string) (readBytes : bytes) :
  match readStartupFile procNames nodeName readBytes with
  | Returned _ log | Panicked _ log => count is_broker log = 0%nat
  end.
Proof.
  unfold readStartupFile.
  pose proof (convertBytesToSAMs_quiet (bytes_Trim_x00 readBytes)) as Hq.
  destruct (convertBytesToSAMs (bytes_Trim_x00 readBytes)) as [[sams|e] log].
  - cbn [snd] in Hq.
    pose proof (removeBlankFromNode_quiet (length sams) 0 sams log Hq) as Hr.
    destruct (removeBlankFromNode (length sams) 0 sams log) as [sams' log'|why log'].
    + apply quiet_count. clear Hq. revert log' Hr.
      induction sams' as [|sam sams' IH]; intros log' Hq; [exact Hq|].
      cbn [fold_left]. apply IH. by apply handleStartupSAM_quiet.
    + by apply quiet_count.
  - apply quiet_count. by apply quiet_snoc.
Qed.

(* ===================================================================== *)
(** ** Properties of reply routing *)
(* ===================================================================== *)

Lemma newSubjectAndMessage_Ok (m : Message) (h : methodHandler) :
  ToNode m <> "" -> getHandler (Method_ m) = Some h ->
  newSubjectAndMessage m =
    Ok (mkSAM (mkSubject (ToNode m) (getKind h) (Method_ m)) m).
Proof.
  intros Hto Hh. unfold newSubjectAndMessage. rewrite Hh.
  apply String_eqb_nonempty in Hto. rewrite Hto.
  destruct (String.eqb (Method_ m) "") eqn:Hme; [|reflexivity].
  apply String_eqb_empty in Hme. rewrite Hme, getHandler_empty in Hh.
  discriminate.
Qed.

Lemma set_ReplyMethod_same (m : Message) : set_ReplyMethod (ReplyMethod m) m = m.
Proof. by destruct m. Qed.

Lemma replyMethodOf_set (m : Message) :
  (if String.eqb (ReplyMethod m) ""
   then set_ReplyMethod REQToFileAppend m else m) =
  set_ReplyMethod (replyMethodOf m) m.
Proof.
  unfold replyMethodOf. destruct (String.eqb (ReplyMethod m) "").
  - reflexivity.
  - by rewrite set_ReplyMethod_same.
Qed.

(** When the subject of the reply cannot be built (no node to answer to, or
    a reply method outside the table), the error is reported and the zero
    [subjectAndMessage] is sent to the ring buffer all the same. *)
Lemma newReplyMessage_unroutable (proc : process) (m : Message) (d : bytes) :
  ReplyMethod m <> REQNone -> FromNode m = "" ->
  exists e,
    newReplyMessage proc m d =
      [ErrSend (set_ReplyMethod (replyMethodOf m) m)
         (ErrReplySubject e (set_ReplyMethod (replyMethodOf m) m));
       ToRingBuffer [zeroSAM]].
Proof.
  intros Hnone Hfrom. unfold newReplyMessage.
  apply String.eqb_neq in Hnone. unfold REQNone in Hnone. rewrite Hnone.
  rewrite replyMethodOf_set.
  set (m' := set_ReplyMethod (replyMethodOf m) m).
  assert (Hf : FromNode m' = "") by exact Hfrom.
  unfold newSubjectAndMessage. cbn [ToNode Method_]. rewrite Hf.
  destruct (getHandler (ReplyMethod m')); eexists; reflexivity.
Qed.

(** C8, as stated, fails at a message with no [ReplyMethod]: the copy put in
    [PreviousMessage] is taken after the default was written into the
    message, so it differs from the original in [ReplyMethod] too. *)
Lemma newReplyMessage_previous_has_default :
  exists sam,
    newReplyMessage (processFor "ship1" EventACK REQCliCommand
                       processKindSubscriber ["*"])
      (cliCommandTo "ship1" "central") [] = [ToRingBuffer [sam]]
    /\ ReplyMethod (cliCommandTo "ship1" "central") = ""
    /\ PreviousMessage (sam_Message sam) <>
         Some (set_Data [] (cliCommandTo "ship1" "central"))
    /\ sam_Message sam <> replyMessage_spec (cliCommandTo "ship1" "central") [].
Proof.
  eexists. split; [vm_compute; reflexivity|].
  split; [reflexivity|]. split.
  - cbn [sam_Message PreviousMessage]. intros E. injection E as E.
    discriminate.
  - intros E. apply (f_equal PreviousMessage) in E.
    cbn [sam_Message PreviousMessage replyMessage_spec] in E.
    injection E as E. discriminate.
Qed.

(** C8, amended. With [REQNone] nothing is sent. Otherwise, when there is a
    node to answer to and the reply method is in the request table, exactly
    one message goes to the ring buffer: addressed back to the sender, with
    the reply method (or [REQToFileAppend] for none), the [Reply*] fields
    as its arguments, timeouts and retries, the same [Directory] and
    [FileName], the handler output as [Data], [IsReply] set, and in
    [PreviousMessage] a copy of the original with [Data] nil and with
    [ReplyMethod] the method the reply is sent with. *)
Theorem newReplyMessage_builds_reply (proc : process) (m : Message) (d : bytes) :
  (ReplyMethod m = REQNone -> newReplyMessage proc m d = [])
  /\ (ReplyMethod m <> REQNone -> FromNode m <> "" ->
      forall h, getHandler (replyMethodOf m) = Some h ->
      exists reply,
        newReplyMessage proc m d =
          [ToRingBuffer
             [mkSAM (mkSubject (FromNode m) (getKind h) (replyMethodOf m)) reply]]
        /\ ToNode reply = FromNode m
        /\ FromNode reply = ToNode m
        /\ Method_ reply = replyMethodOf m
        /\ MethodArgs reply = ReplyMethodArgs m
        /\ ACKTimeout reply = ReplyACKTimeout m
        /\ Retries reply = ReplyRetries m
        /\ MethodTimeout reply = ReplyMethodTimeout m
        /\ Directory reply = Directory m
        /\ FileName reply = FileName m
        /\ Data reply = d
        /\ IsReply reply = true
        /\ PreviousMessage reply =
             Some (set_Data [] (set_ReplyMethod (replyMethodOf m) m))).
Proof.
  split.
  - intros Hnone. unfold newReplyMessage. rewrite Hnone. reflexivity.
  - intros Hnone Hfrom h Hh. unfold newReplyMessage.
    apply String.eqb_neq in Hnone. unfold REQNone in Hnone. rewrite Hnone.
    rewrite replyMethodOf_set.
    set (m' := set_ReplyMethod (replyMethodOf m) m).
    match goal with
    | |- context [newSubjectAndMessage ?x] => set (newMsg := x)
    end.
    exists newMsg.
    rewrite (newSubjectAndMessage_Ok newMsg h); [|exact Hfrom|exact Hh].
    split; [reflexivity|]. repeat split; reflexivity.
Qed.

(** C8, amended, at the command of the fixtures. *)
Lemma newReplyMessage_builds_reply_witness :
  exists reply,
    newReplyMessage (processFor "ship1" EventACK REQCliCommand
                       processKindSubscriber ["*"])
      (cliCommandTo "ship1" "central") [] =
      [ToRingBuffer
         [mkSAM (mkSubject "central" EventACK REQToFileAppend) reply]]
    /\ ToNode reply = "central" /\ FromNode reply = "ship1"
    /\ IsReply reply = true.
Proof.
  destruct (newReplyMessage_builds_reply
              (processFor "ship1" EventACK REQCliCommand
                 processKindSubscriber ["*"])
              (cliCommandTo "ship1" "central") []) as [_ Hb].
  destruct (Hb ltac:(discriminate) ltac:(discriminate)
              (mkHandler "methodREQToFileAppend" EventACK)
              ltac:(vm_compute; reflexivity))
    as (reply & Hr & Hto & Hfrom & _ & _ & _ & _ & _ & _ & _ & _ & Hrep & _).
  exists reply. repeat split; assumption.
Defined.

Lemma filepath_Join_three `{Runtime} (a b c : string) :
  a <> "" ->
  filepath_Join [a; b; c] =
    filepath_Clean
      (String.append a (String.append "/" (String.append b (String.append "/" c)))).
Proof.
  intros Ha. apply String_eqb_nonempty in Ha.
  cbn [filepath_Join]. rewrite Ha. reflexivity.
Qed.

(** C10. [selectFileNaming] follows the three rows of the policy: with no
    [PreviousMessage], the file name of the message and the folder of its
    [Directory] and [ToNode] under the data folder; with a previous message
    that has a [ToNode], the file name, [Directory] and [ToNode] of the
    previous message; with a previous message that has none, its file name
    and [Directory] and the [FromNode] of the message. The folder is the
    [filepath.Join] of the three parts, which for a data folder that is not
    empty is the cleaned path [<dataFolder>/<directory>/<node>]. *)
Theorem selectFileNaming_policy `{Runtime} (m : Message) (p : process) :
  (PreviousMessage m = None ->
     selectFileNaming m p =
       (FileName m,
        filepath_Join [SubscribersDataFolder (configuration p);
                       Directory m; ToNode m]))
  /\ (forall prev, PreviousMessage m = Some prev -> ToNode prev <> "" ->
        selectFileNaming m p =
          (FileName prev,
           filepath_Join [SubscribersDataFolder (configuration p);
                          Directory prev; ToNode prev]))
  /\ (forall prev, PreviousMessage m = Some prev -> ToNode prev = "" ->
        selectFileNaming m p =
          (FileName prev,
           filepath_Join [SubscribersDataFolder (configuration p);
                          Directory prev; FromNode m]))
  /\ (forall dir nd, SubscribersDataFolder (configuration p) <> "" ->
        filepath_Join [SubscribersDataFolder (configuration p); dir; nd] =
          filepath_Clean
            (String.append (SubscribersDataFolder (configuration p))
               (String.append "/" (String.append dir (String.append "/" nd))))).
Proof.
  unfold selectFileNaming.
  split; [|split; [|split]].
  - intros ->. reflexivity.
  - intros prev -> Hto. apply String_eqb_nonempty in Hto. by rewrite Hto.
  - intros prev -> Hto. apply String_eqb_empty in Hto. by rewrite Hto.
  - intros dir nd Hd. by apply filepath_Join_three.
Qed.

(** The scenario of the specification: the reply to a command sent to
    [ship1] with directory [foo] and file name [bar.log] is written on
    [central] under [<dataFolder>/foo/ship1]. *)
Example selectFileNaming_reply_scenario :
  forall reply,
    newReplyMessage (processFor "ship1" EventACK REQCliCommand
                       processKindSubscriber ["*"])
      (cliCommandTo "ship1" "central") [] =
      [ToRingBuffer [mkSAM (mkSubject "central" EventACK REQToFileAppend) reply]] ->
    @selectFileNaming (fixedRuntime [] zeroMessage) reply
      (processFor "central" EventACK REQToFileAppend processKindSubscriber ["*"])
    = ("bar.log", "var/foo/ship1").
Proof.
  intros reply Hr. vm_compute in Hr. injection Hr as <-. reflexivity.
Qed.

(* ===================================================================== *)
(** ** Properties of the signature check *)
(* ===================================================================== *)

(** [strings.Join] puts exactly one separator between neighbours. *)
Lemma strings_Join_cons (e e' : string) (rest : list string) (sep : string) :
  strings_Join (e :: e' :: rest) sep =
    String.append e (String.append sep (strings_Join (e' :: rest) sep)).
Proof. reflexivity. Qed.

Example argsToString_example :
  argsToString ["bash"; "-c"; "tree ./"] = "bash -c tree ./".
Proof. reflexivity. Qed.

(** The check never reads the key store or the sender of the message. *)
Lemma verifySignature_ignores_key_store `{Runtime}
  (n : nodeAuth) (m : Message) (store : keysAndHash) :
  verifySignature
    (mkNodeAuth store (SignPrivateKey n) (SignPublicKey n) (auth_configuration n)) m
  = verifySignature n m.
Proof. reflexivity. Qed.

(** Whatever the signature scheme: when the key stored for the sender and
    the node's own key disagree on a signature, the check disagrees with
    the check that the specification words. *)
Lemma verifySignature_differs_from_spec `{Runtime}
  (n : nodeAuth) (m : Message) (k : bytes) :
  EnableSignatureCheck (auth_configuration n) = true ->
  Method_ m = REQCliCommand ->
  Keys (publicKeys n) !! FromNode m = Some k ->
  length k = ed25519_PublicKeySize ->
  length (SignPublicKey n) = ed25519_PublicKeySize ->
  ed25519_verify k
    (String.list_byte_of_string (argsToString (MethodArgs m))) (ArgSignature m)
  <> ed25519_verify (SignPublicKey n)
       (String.list_byte_of_string (argsToString (MethodArgs m))) (ArgSignature m) ->
  verifySignature n m <> verifySignature_spec n m.
Proof.
  intros Hon Hm Hk Hlk Hln Hne.
  unfold verifySignature, verifySignature_spec, ed25519_Verify.
  rewrite Hon, Hm, Hk. cbn [negb].
  change (String.eqb REQCliCommand REQCliCommand) with true. cbn [negb].
  change (default [] (Some k)) with k.
  rewrite Hlk, Hln, Nat.eqb_refl. intros E. injection E as E. by apply Hne.
Qed.

(** C4, as stated, fails at a command from [central] that carries a valid
    signature for the key stored for [central]: the check is made with the
    receiving node's own public key and rejects it. *)
Lemma verifySignature_not_with_sender_key :
  EnableSignatureCheck (auth_configuration shipAuth) = true
  /\ Method_ signedByCentral = REQCliCommand
  /\ Keys (publicKeys shipAuth) !! FromNode signedByCentral = Some keyOfCentral
  /\ @ed25519_Verify (fixedRuntime [] zeroMessage) keyOfCentral
       (String.list_byte_of_string (argsToString (MethodArgs signedByCentral)))
       (ArgSignature signedByCentral) = Some true
  /\ @verifySignature_spec (fixedRuntime [] zeroMessage) shipAuth signedByCentral
       = Some true
  /\ @verifySignature (fixedRuntime [] zeroMessage) shipAuth signedByCentral
       = Some false.
Proof. repeat split; vm_compute; reflexivity. Qed.

(** C4, amended. The check answers true when enforcement is off and when
    the method is not [REQCliCommand] (the one method that is checked; the
    other methods of the CliCommand family pass unchecked). With
    enforcement on and a [REQCliCommand] it answers what [ed25519.Verify]
    answers for [ArgSignature] over the arguments joined with one space,
    under the public key of the node's own key pair ([SignPublicKey]); the
    key stored for the sending node is not used. *)
Theorem verifySignature_own_key `{Runtime} (n : nodeAuth) (m : Message) :
  (EnableSignatureCheck (auth_configuration n) = false ->
     verifySignature n m = Some true)
  /\ (Method_ m <> REQCliCommand -> verifySignature n m = Some true)
  /\ (EnableSignatureCheck (auth_configuration n) = true ->
      Method_ m = REQCliCommand ->
      verifySignature n m =
        ed25519_Verify (SignPublicKey n)
          (String.list_byte_of_string (strings_Join (MethodArgs m) " "))
          (ArgSignature m)
      /\ (length (SignPublicKey n) = ed25519_PublicKeySize ->
            verifySignature n m =
              Some (ed25519_verify (SignPublicKey n)
                      (String.list_byte_of_string (strings_Join (MethodArgs m) " "))
                      (ArgSignature m))))
  /\ (forall store from,
        verifySignature
          (mkNodeAuth store (SignPrivateKey n) (SignPublicKey n)
             (auth_configuration n))
          (mkMessage (ToNode m) (ToNodes m) (ID m) (Data m) (Method_ m)
             (MethodArgs m) (ArgSignature m) (ReplyMethod m)
             (ReplyMethodArgs m) (IsReply m) from (ACKTimeout m) (Retries m)
             (ReplyACKTimeout m) (ReplyRetries m) (MethodTimeout m)
             (ReplyMethodTimeout m) (Directory m) (FileName m)
             (PreviousMessage m))
        = verifySignature n m).
Proof.
  unfold verifySignature. split; [|split; [|split]].
  - intros ->. reflexivity.
  - intros Hm. apply String.eqb_neq in Hm. rewrite Hm.
    by destruct (EnableSignatureCheck (auth_configuration n)).
  - intros -> ->. cbn [negb]. change (String.eqb REQCliCommand REQCliCommand) with true.
    cbn [negb]. split; [reflexivity|].
    intros Hlen. unfold ed25519_Verify, argsToString. rewrite Hlen.
    reflexivity.
  - intros store from. reflexivity.
Qed.

(* ===================================================================== *)
(** ** Properties of the publisher loop *)
(* ===================================================================== *)

Lemma wrap_int_id (z : Z) : in_int z -> wrap_int z = z.
Proof.
  unfold in_int, int_min, int_max, wrap_int.
  change (2 ^ 63) with 9223372036854775808.
  change (2 ^ 64) with 18446744073709551616.
  intros Hz. rewrite Z.mod_small; lia.
Qed.

(** One turn of the loop, spelled out for rewriting. *)
Lemma deliverLoop_turn `{Runtime} (proc : process) (message : Message)
  (retryAttempts : Z) (a : brokerTurn) (answers : list brokerTurn)
  (log : list effect) :
  deliverLoop proc message retryAttempts (a :: answers) log =
    let log :=
      if snd (gobEncodeMessage message)
      then log ++ [Log LogCreateDataPayload] else log in
    let msgSubject := Subject_name (subject proc) in
    let msgReply := String.append "reply." (Subject_name (subject proc)) in
    if subscribeFails a then
      deliverLoop proc message retryAttempts answers
        (log ++ [SubscribeSync msgReply false; Log LogSubscribeSyncFailed])
    else if publishFails a then
      deliverLoop proc message retryAttempts answers
        ((log ++ [SubscribeSync msgReply true])
           ++ [PublishMsg msgSubject msgReply (fst (gobEncodeMessage message)) false;
               Log LogPublishFailed])
    else if isACK (Subject_Event (subject proc)) then
      match reply a with
      | None =>
          let log' :=
            ((((log ++ [SubscribeSync msgReply true])
                ++ [PublishMsg msgSubject msgReply
                      (fst (gobEncodeMessage message)) true;
                    Log (PrintPreparingToSend message)])
               ++ [NextMsg (ACKTimeout message) None; Log LogNextMsgFailed])
              ++ [Log (PrintRetryAttempts (wrap_int (retryAttempts + 1))
                         (Retries message) (ACKTimeout message))]) in
          if (Retries message =? 0)%Z then
            deliverLoop proc message (wrap_int (retryAttempts + 1)) answers log'
          else if (wrap_int (retryAttempts + 1) >=? Retries message)%Z then
            Delivered (log' ++ [Log (LogMaxRetries (wrap_int (retryAttempts + 1)))])
          else
            deliverLoop proc message (wrap_int (retryAttempts + 1)) answers log'
      | Some d =>
          Delivered
            (((log ++ [SubscribeSync msgReply true])
                ++ [PublishMsg msgSubject msgReply
                      (fst (gobEncodeMessage message)) true;
                    Log (PrintPreparingToSend message)])
               ++ [NextMsg (ACKTimeout message) (Some d); Log (LogReceivedACK d)])
      end
    else
      Delivered
        ((log ++ [SubscribeSync msgReply true])
           ++ [PublishMsg msgSubject msgReply
                 (fst (gobEncodeMessage message)) true;
               Log (PrintPreparingToSend message)]).
Proof.
  cbn [deliverLoop]. destruct (gobEncodeMessage message) as [payload encErr].
  reflexivity.
Qed.

(** The answers not yet used are used by the loop as it stands. *)
Lemma deliverLoop_app `{Runtime} (proc : process) (message : Message)
  (a1 a2 : list brokerTurn) :
  forall (r : Z) (log : list effect) (r' : Z) (log' : list effect),
    deliverLoop proc message r a1 log = StillTrying r' log' ->
    deliverLoop proc message r (a1 ++ a2) log =
      deliverLoop proc message r' a2 log'.
Proof.
  induction a1 as [|a a1 IH]; intros r log r' log' Hs.
  - simpl in Hs. injection Hs as <- <-. reflexivity.
  - rewrite <- app_comm_cons. rewrite deliverLoop_turn in *.
    cbv zeta in *.
    destruct (subscribeFails a); [by apply IH|].
    destruct (publishFails a); [by apply IH|].
    destruct (isACK (Subject_Event (subject proc))); [|discriminate].
    destruct (reply a); [discriminate|].
    destruct (Retries message =? 0)%Z; [by apply IH|].
    destruct (wrap_int (r + 1) >=? Retries message)%Z; [discriminate|].
    by apply IH.
Qed.

Lemma deliverLoop_accepted_bound `{Runtime} (proc : process) (m : Message) :
  isACK (Subject_Event (subject proc)) = true ->
  1 <= Retries m -> in_int (Retries m) ->
  forall (answers : list brokerTurn) (r : Z) (log : list effect),
    0 <= r < Retries m ->
    (count is_PublishMsg_ok (delivery_log (deliverLoop proc m r answers log))
       + Z.to_nat r
     <= count is_PublishMsg_ok log + Z.to_nat (Retries m))%nat.
Proof.
  intros Hack HR Hint.
  induction answers as [|a answers IH]; intros r log Hr.
  - simpl. lia.
  - rewrite deliverLoop_turn. cbv zeta.
    set (log0 := if snd (gobEncodeMessage m)
                 then log ++ [Log LogCreateDataPayload] else log).
    assert (H0 : count is_PublishMsg_ok log0 = count is_PublishMsg_ok log).
    { unfold log0. destruct (snd (gobEncodeMessage m)); [|reflexivity].
      count_log. lia. }
    destruct (subscribeFails a).
    { etransitivity; [apply IH; lia|]. count_log. lia. }
    destruct (publishFails a).
    { etransitivity; [apply IH; lia|]. count_log. lia. }
    rewrite Hack.
    assert (Hw : wrap_int (r + 1) = r + 1).
    { apply wrap_int_id. unfold in_int, int_min, int_max in *.
      change (2 ^ 63) with 9223372036854775808 in *. lia. }
    destruct (reply a) as [d|].
    + cbn [delivery_log]. count_log. lia.
    + rewrite Hw.
      destruct (Z.eqb_spec (Retries m) 0) as [E|_]; [lia|].
      destruct (Z.geb_spec (r + 1) (Retries m)) as [Hge|Hlt].
      * cbn [delivery_log]. count_log. lia.
      * assert (Hr' : 0 <= r + 1 < Retries m) by lia.
        match goal with
        | |- context [deliverLoop _ _ _ _ ?l] =>
            pose proof (IH (r + 1) l Hr') as IH'
        end.
        revert IH'. count_log. lia.
Qed.

(** Timeouts that leave the loop running: with [Retries] zero any number of
    them, otherwise fewer than [Retries]. Each one costs one publish. *)
Lemma deliverLoop_timeouts `{Runtime} (proc : process) (m : Message) :
  isACK (Subject_Event (subject proc)) = true ->
  forall (k : nat) (r : Z) (log : list effect),
    (Retries m = 0
     \/ (0 <= r /\ r + Z.of_nat k < Retries m /\ in_int (Retries m))) ->
    exists r' log',
      deliverLoop proc m r (repeat timesOut k) log = StillTrying r' log'
      /\ count is_PublishMsg log' = (count is_PublishMsg log + k)%nat
      /\ count is_PublishMsg_ok log' = (count is_PublishMsg_ok log + k)%nat
      /\ (Retries m <> 0 -> r' = r + Z.of_nat k).
Proof.
  intros Hack.
  induction k as [|k IH]; intros r log Hcase.
  - exists r, log. simpl. repeat split; try lia.
  - cbn [repeat]. rewrite deliverLoop_turn. cbv zeta.
    cbn [timesOut subscribeFails publishFails reply]. rewrite Hack.
    set (log0 := if snd (gobEncodeMessage m)
                 then log ++ [Log LogCreateDataPayload] else log).
    assert (H0 : count is_PublishMsg log0 = count is_PublishMsg log
                 /\ count is_PublishMsg_ok log0 = count is_PublishMsg_ok log).
    { unfold log0. destruct (snd (gobEncodeMessage m)); [|by split].
      count_log. lia. }
    destruct H0 as [H0 H0'].
    destruct Hcase as [Hz|(Hr & Hlt & Hint)].
    + rewrite Hz. cbn [Z.eqb].
      match goal with
      | |- context [deliverLoop _ _ ?r1 _ ?l] =>
          destruct (IH r1 l (or_introl Hz)) as (r' & log' & Hd & Hc & Hc' & Hr')
      end.
      exists r', log'. split; [exact Hd|].
      revert Hc Hc'. count_log. intros Hc Hc'.
      repeat split; try lia.
    + assert (Hw : wrap_int (r + 1) = r + 1).
      { apply wrap_int_id. unfold in_int, int_min, int_max in *.
        change (2 ^ 63) with 9223372036854775808 in *. lia. }
      rewrite Hw.
      destruct (Z.eqb_spec (Retries m) 0) as [E|_]; [lia|].
      destruct (Z.geb_spec (r + 1) (Retries m)) as [Hge|_]; [lia|].
      match goal with
      | |- context [deliverLoop _ _ _ _ ?l] =>
          destruct (IH (r + 1) l) as (r' & log' & Hd & Hc & Hc' & Hr')
      end.
      { right. repeat split; try lia; apply Hint. }
      exists r', log'. split; [exact Hd|].
      revert Hc Hc'. count_log. intros Hc Hc'.
      repeat split; try lia.
Qed.

(** The timeout that brings the attempts up to [Retries] ends the loop. *)
Lemma deliverLoop_last_timeout `{Runtime} (proc : process) (m : Message)
  (r : Z) (rest : list brokerTurn) (log : list effect) :
  isACK (Subject_Event (subject proc)) = true ->
  0 <= r -> r + 1 = Retries m -> in_int (Retries m) ->
  exists log',
    deliverLoop proc m r (timesOut :: rest) log = Delivered log'
    /\ count is_PublishMsg log' = (count is_PublishMsg log + 1)%nat
    /\ last log' = Some (Log (LogMaxRetries (Retries m))).
Proof.
  intros Hack Hr HR Hint.
  rewrite deliverLoop_turn. cbv zeta.
  cbn [timesOut subscribeFails publishFails reply]. rewrite Hack.
  assert (Hw : wrap_int (r + 1) = r + 1).
  { apply wrap_int_id. by rewrite HR. }
  rewrite Hw.
  destruct (Z.eqb_spec (Retries m) 0) as [E|_]; [lia|].
  destruct (Z.geb_spec (r + 1) (Retries m)) as [_|Hlt]; [|lia].
  eexists. split; [reflexivity|]. split.
  - count_log. destruct (snd (gobEncodeMessage m)); count_log; lia.
  - rewrite last_snoc. by rewrite HR.
Qed.

(** Every publish of the loop carries the one message it was called with. *)
Lemma deliverLoop_same_message `{Runtime} (proc : process) (m : Message) :
  forall (answers : list brokerTurn) (r : Z) (log : list effect),
    Forall (carries proc m) log ->
    Forall (carries proc m) (delivery_log (deliverLoop proc m r answers log)).
Proof.
  induction answers as [|a answers IH]; intros r log Hl; [exact Hl|].
  rewrite deliverLoop_turn. cbv zeta.
  set (log0 := if snd (gobEncodeMessage m)
               then log ++ [Log LogCreateDataPayload] else log).
  assert (H0 : Forall (carries proc m) log0).
  { unfold log0. destruct (snd (gobEncodeMessage m)); [|exact Hl].
    apply Forall_app. split; [exact Hl|]. by repeat constructor. }
  assert (Hstep : forall ok,
    Forall (carries proc m)
      [PublishMsg (Subject_name (subject proc))
         (String.append "reply." (Subject_name (subject proc)))
         (fst (gobEncodeMessage m)) ok]).
  { intros ok. by repeat constructor. }
  destruct (subscribeFails a).
  { apply IH. apply Forall_app. split; [exact H0|]. by repeat constructor. }
  destruct (publishFails a).
  { apply IH. repeat (apply Forall_app; split); try exact H0;
      by repeat constructor. }
  destruct (isACK (Subject_Event (subject proc))).
  - destruct (reply a).
    + cbn [delivery_log]. repeat (apply Forall_app; split); try exact H0;
        by repeat constructor.
    + destruct (Retries m =? 0)%Z;
        [|destruct (wrap_int (r + 1) >=? Retries m)%Z]; try apply IH;
        cbn [delivery_log];
        repeat (apply Forall_app; split); try exact H0; by repeat constructor.
  - cbn [delivery_log]. repeat (apply Forall_app; split); try exact H0;
      by repeat constructor.
Qed.

(** The publishes tried, the refused ones included: at most [Retries] and
    one more for every publish that the broker refused. *)
Lemma deliverLoop_tried_bound `{Runtime} (proc : process) (m : Message) :
  isACK (Subject_Event (subject proc)) = true ->
  1 <= Retries m -> in_int (Retries m) ->
  forall (answers : list brokerTurn) (r : Z) (log : list effect),
    0 <= r < Retries m ->
    (count is_PublishMsg (delivery_log (deliverLoop proc m r answers log))
       + Z.to_nat r
     <= count is_PublishMsg log + Z.to_nat (Retries m)
        + length (List.filter publishFails answers))%nat.
Proof.
  intros Hack HR Hint.
  induction answers as [|a answers IH]; intros r log Hr.
  - simpl. lia.
  - rewrite deliverLoop_turn. cbv zeta. cbn [List.filter].
    set (log0 := if snd (gobEncodeMessage m)
                 then log ++ [Log LogCreateDataPayload] else log).
    assert (H0 : count is_PublishMsg log0 = count is_PublishMsg log).
    { unfold log0. destruct (snd (gobEncodeMessage m)); [|reflexivity].
      count_log. lia. }
    destruct (publishFails a) eqn:Hp; destruct (subscribeFails a);
      cbn [length];
      try (match goal with
           | |- context [deliverLoop _ _ _ _ ?l] =>
               pose proof (IH r l Hr) as IH'
           end;
           revert IH'; count_log; lia).
    rewrite Hack.
    assert (Hw : wrap_int (r + 1) = r + 1).
    { apply wrap_int_id. unfold in_int, int_min, int_max in *.
      change (2 ^ 63) with 9223372036854775808 in *. lia. }
    destruct (reply a) as [d|].
    + cbn [delivery_log]. count_log. lia.
    + rewrite Hw.
      destruct (Z.eqb_spec (Retries m) 0) as [E|_]; [lia|].
      destruct (Z.geb_spec (r + 1) (Retries m)) as [Hge|Hlt].
      * cbn [delivery_log]. count_log. lia.
      * assert (Hr' : 0 <= r + 1 < Retries m) by lia.
        match goal with
        | |- context [deliverLoop _ _ _ _ ?l] =>
            pose proof (IH (r + 1) l Hr') as IH'
        end.
        revert IH'. count_log. lia.
Qed.

(** C1. For a subject of an ACK kind and a message with [Retries] R >= 1:
    whatever the broker answers, at most R publishes are accepted by it,
    and the publishes tried are at most R and the ones it refused; if
    the reply to the first publish arrives in time the loop returns with
    exactly one publish made; while fewer than R waits have timed out the
    loop is still running, and the R-th timeout in a row makes it log that
    the maximum of retries is reached and return, R publishes made. With
    [Retries] zero the loop is still running after any number of timeouts,
    one publish made for each. Every publish carries the encoding of the
    one message the loop was called with. *)
Theorem messageDeliverNats_ACK_retries `{Runtime} (proc : process) (m : Message) :
  isACK (Subject_Event (subject proc)) = true ->
  in_int (Retries m) ->
  (1 <= Retries m ->
     (forall answers,
        (count is_PublishMsg_ok (delivery_log (messageDeliverNats proc m answers))
         <= Z.to_nat (Retries m))%nat
        /\ (count is_PublishMsg (delivery_log (messageDeliverNats proc m answers))
            <= Z.to_nat (Retries m) + length (List.filter publishFails answers))%nat)
     /\ (forall d rest, exists log,
           messageDeliverNats proc m (replyArrives d :: rest) = Delivered log
           /\ count is_PublishMsg log = 1%nat)
     /\ (forall k, (k < Z.to_nat (Retries m))%nat -> exists log,
           messageDeliverNats proc m (repeat timesOut k) =
             StillTrying (Z.of_nat k) log
           /\ count is_PublishMsg log = k)
     /\ (forall rest, exists log,
           messageDeliverNats proc m
             (repeat timesOut (Z.to_nat (Retries m)) ++ rest) = Delivered log
           /\ count is_PublishMsg log = Z.to_nat (Retries m)
           /\ last log = Some (Log (LogMaxRetries (Retries m)))))
  /\ (Retries m = 0 ->
      forall n, exists r log,
        messageDeliverNats proc m (repeat timesOut n) = StillTrying r log
        /\ count is_PublishMsg log = n)
  /\ (forall answers,
        Forall (carries proc m)
          (delivery_log (messageDeliverNats proc m answers))).
Proof.
  intros Hack Hint. unfold messageDeliverNats. split; [|split].
  - intros HR. split; [|split; [|split]].
    + intros answers.
      pose proof (deliverLoop_accepted_bound proc m Hack HR Hint answers 0 []
                    ltac:(lia)) as Hb.
      pose proof (deliverLoop_tried_bound proc m Hack HR Hint answers 0 []
                    ltac:(lia)) as Hb'.
      revert Hb Hb'. count_log. lia.
    + intros d rest. rewrite deliverLoop_turn. cbv zeta.
      cbn [replyArrives subscribeFails publishFails reply]. rewrite Hack.
      eexists. split; [reflexivity|].
      destruct (snd (gobEncodeMessage m)); count_log; lia.
    + intros k Hk.
      destruct (deliverLoop_timeouts proc m Hack k 0 [])
        as (r' & log' & Hd & Hc & _ & Hr').
      { right. repeat split; try lia; apply Hint. }
      exists log'. rewrite Hd, Hr' by lia. split; [f_equal; lia|].
      revert Hc. count_log. lia.
    + intros rest.
      destruct (Z.to_nat (Retries m)) as [|k] eqn:HRn; [lia|].
      destruct (deliverLoop_timeouts proc m Hack k 0 [])
        as (r' & log' & Hd & Hc & _ & Hr').
      { right. repeat split; try lia; apply Hint. }
      replace (S k) with (k + 1)%nat by lia.
      rewrite repeat_app, <- app_assoc.
      rewrite (deliverLoop_app proc m _ _ 0 [] r' log' Hd).
      cbn [repeat app].
      destruct (deliverLoop_last_timeout proc m r' rest log' Hack)
        as (log'' & Hd' & Hc' & Hlast); try (rewrite Hr' by lia; lia);
        [exact Hint|].
      exists log''. split; [exact Hd'|]. split; [|exact Hlast].
      rewrite Hc', Hc. count_log. lia.
  - intros Hz n.
    destruct (deliverLoop_timeouts proc m Hack n 0 [] (or_introl Hz))
      as (r' & log' & Hd & Hc & _ & _).
    exists r', log'. split; [exact Hd|]. revert Hc. count_log. lia.
  - intros answers. apply deliverLoop_same_message. constructor.
Qed.

(** C1 at the command of the fixtures, which asks for three tries. *)
Lemma messageDeliverNats_ACK_retries_witness :
  isACK (Subject_Event (subject ackPublisher)) = true
  /\ in_int (Retries (cliCommandTo "ship1" "central"))
  /\ (forall answers,
        (count is_PublishMsg_ok
           (delivery_log
              (@messageDeliverNats (fixedRuntime [] zeroMessage) ackPublisher
                 (cliCommandTo "ship1" "central") answers)) <= 3)%nat
        /\ (count is_PublishMsg
             (delivery_log
                (@messageDeliverNats (fixedRuntime [] zeroMessage) ackPublisher
                   (cliCommandTo "ship1" "central") answers))
            <= 3 + length (List.filter publishFails answers))%nat).
Proof.
  assert (Hack : isACK (Subject_Event (subject ackPublisher)) = true)
    by reflexivity.
  assert (Hint : in_int (Retries (cliCommandTo "ship1" "central")))
    by (unfold in_int, int_min, int_max; simpl; lia).
  split; [exact Hack|]. split; [exact Hint|].
  destruct (@messageDeliverNats_ACK_retries (fixedRuntime [] zeroMessage)
              ackPublisher (cliCommandTo "ship1" "central") Hack Hint)
    as [Hb _].
  destruct (Hb ltac:(simpl; lia)) as [Hbound _].
  exact Hbound.
Defined.

(** The scenario of the specification: three tries asked for and nobody
    listening gives three publishes, then the report and the return. *)
Example messageDeliverNats_three_timeouts :
  exists log,
    @messageDeliverNats (fixedRuntime [] zeroMessage) ackPublisher
      (cliCommandTo "ship1" "central") [timesOut; timesOut; timesOut; timesOut]
    = Delivered log
    /\ count is_PublishMsg log = 3%nat
    /\ last log = Some (Log (LogMaxRetries 3)).
Proof. eexists. split; [vm_compute; reflexivity|]. split; reflexivity. Qed.

Lemma isNACK_not_ACK (e : Event) : isNACK e = true -> isACK e = false.
Proof. by destruct e. Qed.

Lemma count_le (f g : effect -> bool) (l : list effect) :
  (forall e, f e = true -> g e = true) -> (count f l <= count g l)%nat.
Proof.
  intros Hfg. induction l as [|e l IH]; [reflexivity|].
  rewrite !count_cons. specialize (Hfg e).
  destruct (f e), (g e); try lia; discriminate (Hfg eq_refl).
Qed.

(** While every turn fails at the broker the loop goes round, whatever the
    kind of the subject, and the count of attempts is not touched. *)
Lemma deliverLoop_broker_fails `{Runtime} (proc : process) (m : Message) :
  forall (fails : list brokerTurn) (r : Z) (log : list effect),
    Forall (fun t => brokerFails t = true) fails ->
    exists log', deliverLoop proc m r fails log = StillTrying r log'.
Proof.
  induction fails as [|a fails IH]; intros r log Hf.
  - by exists log.
  - apply Forall_cons in Hf. destruct Hf as [Ha Hf].
    rewrite deliverLoop_turn. cbv zeta. unfold brokerFails in Ha.
    destruct (subscribeFails a); [by apply IH|].
    destruct (publishFails a); [by apply IH|]. discriminate.
Qed.

(** The loop for a subject that is not of an ACK kind: it never waits for a
    reply, it subscribes once before each publish it tries, and it returns
    right after the first publish that the broker accepts. *)
Lemma deliverLoop_no_ACK `{Runtime} (proc : process) (m : Message) :
  isACK (Subject_Event (subject proc)) = false ->
  forall (answers : list brokerTurn) (r : Z) (log : list effect),
    count is_NextMsg (delivery_log (deliverLoop proc m r answers log))
      = count is_NextMsg log
    /\ (count is_SubscribeSync_ok (delivery_log (deliverLoop proc m r answers log))
         + count is_PublishMsg log
       = count is_SubscribeSync_ok log
         + count is_PublishMsg (delivery_log (deliverLoop proc m r answers log)))%nat
    /\ match deliverLoop proc m r answers log with
       | Delivered log' =>
           count is_PublishMsg_ok log' = (count is_PublishMsg_ok log + 1)%nat
           /\ exists pre,
                log' = pre ++
                  [PublishMsg (Subject_name (subject proc))
                     (String.append "reply." (Subject_name (subject proc)))
                     (fst (gobEncodeMessage m)) true;
                   Log (PrintPreparingToSend m)]
       | StillTrying _ log' =>
           count is_PublishMsg_ok log' = count is_PublishMsg_ok log
       end.
Proof.
  intros Hack.
  induction answers as [|a answers IH]; intros r log.
  - simpl. repeat split; lia.
  - rewrite deliverLoop_turn. cbv zeta. rewrite Hack.
    set (log0 := if snd (gobEncodeMessage m)
                 then log ++ [Log LogCreateDataPayload] else log).
    assert (H0 : count is_NextMsg log0 = count is_NextMsg log
                 /\ count is_SubscribeSync_ok log0 = count is_SubscribeSync_ok log
                 /\ count is_PublishMsg log0 = count is_PublishMsg log
                 /\ count is_PublishMsg_ok log0 = count is_PublishMsg_ok log).
    { unfold log0. destruct (snd (gobEncodeMessage m)); [|by repeat split].
      count_log. lia. }
    destruct H0 as (Hn & Hs & Hp & Hk).
    destruct (subscribeFails a).
    { match goal with
      | |- context [deliverLoop _ _ _ _ ?l] =>
          destruct (IH r l) as (IHn & IHs & IHd)
      end.
      revert IHn IHs IHd. count_log. intros IHn IHs IHd.
      split; [lia|]. split; [lia|].
      destruct (deliverLoop proc m r answers _).
      - destruct IHd as [IHk Hpre]. split; [lia|exact Hpre].
      - lia. }
    destruct (publishFails a).
    { match goal with
      | |- context [deliverLoop _ _ _ _ ?l] =>
          destruct (IH r l) as (IHn & IHs & IHd)
      end.
      revert IHn IHs IHd. count_log. intros IHn IHs IHd.
      split; [lia|]. split; [lia|].
      destruct (deliverLoop proc m r answers _).
      - destruct IHd as [IHk Hpre]. split; [lia|exact Hpre].
      - lia. }
    cbn [delivery_log]. count_log.
    split; [lia|]. split; [lia|]. split; [lia|].
    eexists. reflexivity.
Qed.

(** C2, as stated, fails at a hello message whose publish the broker takes
    at once: the loop has subscribed to the reply inbox before it publishes,
    as it does for every subject. *)
Lemma messageDeliverNats_NACK_subscribes :
  isNACK (Subject_Event (subject nackPublisher)) = true
  /\ exists log,
       @messageDeliverNats (fixedRuntime [] zeroMessage) nackPublisher
         (helloTo "central" "ship1") [accepts] = Delivered log
       /\ log =
            [SubscribeSync "reply.central.REQHello.EventNACK" true;
             PublishMsg "central.REQHello.EventNACK"
               "reply.central.REQHello.EventNACK"
               (String.list_byte_of_string "central") true;
             Log (PrintPreparingToSend (helloTo "central" "ship1"))]
       /\ count is_SubscribeSync log = 1%nat
       /\ count is_SubscribeSync log <> 0%nat.
Proof.
  split; [reflexivity|]. eexists. split; [vm_compute; reflexivity|].
  split; [reflexivity|]. split; [reflexivity|]. discriminate.
Qed.

(** C2, amended. For a subject of a NACK kind the loop subscribes to the
    reply inbox before each publish it tries, as for any subject, and
    returns at the first turn in which the broker takes both. When it has
    returned, exactly one publish was accepted and it is the last thing the
    loop did with the broker; there were as many subscriptions made as
    publishes tried, so at least one; and no wait for a reply, hence no
    retry on a timeout. *)
Theorem messageDeliverNats_NACK_one_publish `{Runtime}
  (proc : process) (m : Message) :
  isNACK (Subject_Event (subject proc)) = true ->
  (forall fails a rest,
     Forall (fun t => brokerFails t = true) fails -> brokerFails a = false ->
     exists log,
       messageDeliverNats proc m (fails ++ a :: rest) = Delivered log)
  /\ (forall answers log,
        messageDeliverNats proc m answers = Delivered log ->
        count is_PublishMsg_ok log = 1%nat
        /\ count is_NextMsg log = 0%nat
        /\ count is_SubscribeSync_ok log = count is_PublishMsg log
        /\ (1 <= count is_SubscribeSync log)%nat
        /\ exists pre,
             log = pre ++
               [PublishMsg (Subject_name (subject proc))
                  (String.append "reply." (Subject_name (subject proc)))
                  (fst (gobEncodeMessage m)) true;
                Log (PrintPreparingToSend m)]).
Proof.
  intros Hnack. apply isNACK_not_ACK in Hnack. unfold messageDeliverNats.
  split.
  - intros fails a rest Hf Ha.
    destruct (deliverLoop_broker_fails proc m fails 0 [] Hf) as [log' Hd].
    rewrite (deliverLoop_app proc m _ _ 0 [] 0 log' Hd).
    rewrite deliverLoop_turn. cbv zeta. rewrite Hnack.
    unfold brokerFails in Ha. apply orb_false_elim in Ha.
    destruct Ha as [-> ->]. eexists. reflexivity.
  - intros answers log Hd.
    destruct (deliverLoop_no_ACK proc m Hnack answers 0 []) as (Hn & Hs & Hk).
    rewrite Hd in Hn, Hs, Hk. cbn [delivery_log] in Hn, Hs.
    destruct Hk as [Hk Hpre]. revert Hn Hs Hk. count_log. intros Hn Hs Hk.
    pose proof (count_le is_PublishMsg_ok is_PublishMsg log) as H1.
    pose proof (count_le is_SubscribeSync_ok is_SubscribeSync log) as H2.
    split; [lia|]. split; [lia|]. split; [lia|]. split; [|exact Hpre].
    assert (count is_PublishMsg_ok log <= count is_PublishMsg log)%nat
      by (apply H1; intros [] ?; try done; by destruct ok).
    assert (count is_SubscribeSync_ok log <= count is_SubscribeSync log)%nat
      by (apply H2; intros [] ?; try done).
    lia.
Qed.

(** C2, amended, at the hello message of the fixtures. *)
Lemma messageDeliverNats_NACK_one_publish_witness :
  isNACK (Subject_Event (subject nackPublisher)) = true
  /\ exists log,
       @messageDeliverNats (fixedRuntime [] zeroMessage) nackPublisher
         (helloTo "central" "ship1")
         ([mkTurn true false None; mkTurn false true None] ++ accepts :: [])
       = Delivered log.
Proof.
  assert (Hnack : isNACK (Subject_Event (subject nackPublisher)) = true)
    by reflexivity.
  split; [exact Hnack|].
  destruct (@messageDeliverNats_NACK_one_publish (fixedRuntime [] zeroMessage)
              nackPublisher (helloTo "central" "ship1") Hnack) as [Hret _].
  apply Hret.
  - repeat constructor.
  - reflexivity.
Defined.

(* ===================================================================== *)
(** ** Properties of the subscriber's handler *)
(* ===================================================================== *)

Lemma CheckIfExists_flag (ma : MethodsAvailable) (m : Method) :
  CheckIfExists ma m = (Methodhandlers ma !! m, bool_decide (is_Some (Methodhandlers ma !! m))).
Proof. unfold CheckIfExists. by destruct (Methodhandlers ma !! m). Qed.

(** On a subject of an ACK kind a sender that is not let in gets the
    refusal as the reply, and no handler is called. *)
Lemma subscriberHandler_ACK_not_allowed `{Runtime} (p : process)
  (ma : MethodsAvailable) (thisNode : string) (msgData : bytes)
  (msgReply : string) :
  isACK (Subject_Event (subject p)) = true ->
  FromNode (fst (gobDecode msgData)) ∉ allowedReceivers p ->
  "*" ∉ allowedReceivers p ->
  exists log,
    subscriberHandler p ma thisNode msgData msgReply = Returned tt log
    /\ count is_HandlerCall log = 0%nat
    /\ In (Publish msgReply
             (String.list_byte_of_string
                (String.append "not allowed from "
                   (FromNode (fst (gobDecode msgData)))))) log.
Proof.
  intros Hack Hfrom Hstar. unfold subscriberHandler.
  destruct (gobDecode msgData) as [message decErr]. cbn [fst] in Hfrom.
  rewrite Hack. rewrite CheckIfExists_flag.
  rewrite (bool_decide_eq_false_2 _ Hfrom), (bool_decide_eq_false_2 _ Hstar).
  cbn [orb].
  eexists. split; [reflexivity|]. split.
  - destruct decErr, (bool_decide (is_Some (Methodhandlers ma !! Method_ message)));
      count_log; reflexivity.
  - unfold notAllowedFrom. apply in_or_app. right. simpl. by left.
Qed.

(** On a subject of a NACK kind the handler of a method of the table is
    called whoever the sender is: the set of allowed senders is not read.
    Nothing is sent to the broker. *)
Lemma subscriberHandler_NACK_calls_handler `{Runtime} (p : process)
  (ma : MethodsAvailable) (thisNode : string) (msgData : bytes)
  (msgReply : string) (h : methodHandler) :
  isNACK (Subject_Event (subject p)) = true ->
  Methodhandlers ma !! Method_ (fst (gobDecode msgData)) = Some h ->
  exists log,
    subscriberHandler p ma thisNode msgData msgReply = Returned tt log
    /\ In (HandlerCall h (fst (gobDecode msgData)) thisNode) log
    /\ count is_broker log = 0%nat.
Proof.
  intros Hnack Hh. unfold subscriberHandler.
  destruct (gobDecode msgData) as [message decErr]. cbn [fst] in *.
  rewrite (isNACK_not_ACK _ Hnack), Hnack. unfold CheckIfExists. rewrite Hh.
  destruct (handler_run h p message thisNode) as [out err].
  eexists. split; [reflexivity|]. split.
  - destruct err; repeat (apply in_or_app; (try by (right; simpl; left)); left);
      apply in_or_app; right; simpl; by left.
  - destruct decErr, err; count_log; reflexivity.
Qed.

(** C3, at a hello message (a NACK method) that reaches a subscriber which
    receives from [ship1] alone, sent by another node: the handler is
    called all the same. *)
Theorem subscriberHandler_NACK_not_allowed_handled :
  isNACK (Subject_Event (subject helloSubscriber)) = true
  /\ ("intruder" ∉ allowedReceivers helloSubscriber)
  /\ ("*" ∉ allowedReceivers helloSubscriber)
  /\ @subscriberHandler (fixedRuntime [] (helloTo "central" "intruder"))
       helloSubscriber GetMethodsAvailable "central" []
       "reply.central.REQHello.EventNACK"
     = Returned tt
         [Log LogPreparingToCallHandler;
          HandlerCall (mkHandler "methodREQHello" EventNACK)
            (helloTo "central" "intruder") "central"].
Proof.
  split; [reflexivity|].
  split; [refine (proj1 (bool_decide_eq_false _) _); vm_compute; reflexivity|].
  split; [refine (proj1 (bool_decide_eq_false _) _); vm_compute; reflexivity|].
  vm_compute. reflexivity.
Qed.

(** A method outside the table makes the handler panic on the nil method
    handler whenever the call is reached: on an ACK subject for a sender
    that is let in, on a NACK subject always. *)
Lemma subscriberHandler_unknown_method_panics `{Runtime} (p : process)
  (ma : MethodsAvailable) (thisNode : string) (msgData : bytes)
  (msgReply : string) :
  Methodhandlers ma !! Method_ (fst (gobDecode msgData)) = None ->
  (isACK (Subject_Event (subject p)) = true
   /\ (FromNode (fst (gobDecode msgData)) ∈ allowedReceivers p
       \/ "*" ∈ allowedReceivers p))
  \/ isNACK (Subject_Event (subject p)) = true ->
  exists log,
    subscriberHandler p ma thisNode msgData msgReply = Panicked NilHandler log
    /\ In (Log (LogMethodNotAvailable (Subject_Event (subject p)))) log
    /\ count is_HandlerCall log = 0%nat.
Proof.
  intros Hnone Hcase. unfold subscriberHandler.
  destruct (gobDecode msgData) as [message decErr]. cbn [fst] in *.
  unfold CheckIfExists. rewrite Hnone.
  destruct Hcase as [[Hack Hallowed]|Hnack].
  - rewrite Hack.
    assert (Hor : bool_decide (FromNode message ∈ allowedReceivers p)
                  || bool_decide ("*" ∈ allowedReceivers p) = true).
    { apply orb_true_iff.
      destruct Hallowed as [Ha|Ha]; [left|right]; by apply bool_decide_eq_true_2. }
    rewrite Hor. eexists. split; [reflexivity|]. split.
    + apply in_or_app. right. simpl. by left.
    + destruct decErr; count_log; reflexivity.
  - rewrite (isNACK_not_ACK _ Hnack), Hnack.
    eexists. split; [reflexivity|]. split.
    + apply in_or_app. right. simpl. by left.
    + destruct decErr; count_log; reflexivity.
Qed.

(** C5, at a message for a method outside the table that reaches a
    subscriber which receives from all: the miss is logged, and the call
    on the missing handler panics. *)
Theorem subscriberHandler_unknown_method_nil_call :
  getHandler (Method_ (unknownMethodTo "central" "ship1")) = None
  /\ @subscriberHandler (fixedRuntime [] (unknownMethodTo "central" "ship1"))
       cliSubscriber GetMethodsAvailable "central" []
       "reply.central.REQCliCommand.EventACK"
     = Panicked NilHandler
         [Log LogPreparingToCallHandler;
          Log (LogMethodNotAvailable EventACK)].
Proof. split; vm_compute; reflexivity. Qed.

(* ===================================================================== *)
(** ** The properties at the fixtures *)
(* ===================================================================== *)

(** C6 at a command for two nodes: two messages come out, one per node. *)
Lemma checkMessageToNodes_fan_out_witness :
  exists out,
    fst (checkMessageToNodes ([] ++ cliCommandToBoth :: [])) = out
    /\ length out = 2%nat
    /\ (exists m, out !! 1%nat = Some m /\ ToNode m = "ship2" /\ ToNodes m = []).
Proof.
  destruct (checkMessageToNodes_fan_out [] [] cliCommandToBoth)
    as (out & Hout & _ & Hfan & _).
  destruct (Hfan eq_refl) as (Hlen & Hnth & _).
  destruct (Hnth 1%nat "ship2" eq_refl) as (m & Hm & Hto & Hns & _).
  exists out. split.
  - rewrite Hout. cbn [checkMessageToNodes fold_left fst app].
    by rewrite app_nil_r.
  - split; [exact Hlen|]. by exists m.
Defined.

(** C7 at the command of the fixtures: the subject is the node, the event
    of the method's entry and the method. *)
Lemma newSubjectAndMessage_validates_witness :
  newSubjectAndMessage (cliCommandTo "ship1" "central") =
    Ok (mkSAM (mkSubject "ship1" EventACK REQCliCommand)
          (cliCommandTo "ship1" "central")).
Proof.
  destruct (@newSubjectAndMessage_validates (fixedRuntime [] zeroMessage))
    as (_ & Hok & _).
  apply (Hok (cliCommandTo "ship1" "central")
           (mkHandler "methodREQCliCommand" EventACK)).
  - discriminate.
  - vm_compute. reflexivity.
Defined.

(** C4, amended, at the signed command of the fixtures: the key of the
    check is the key of the receiving node. *)
Lemma verifySignature_own_key_witness :
  @verifySignature (fixedRuntime [] zeroMessage) shipAuth signedByCentral =
    @ed25519_Verify (fixedRuntime [] zeroMessage) keyOfShip
      (String.list_byte_of_string "bash -c tree ./")
      (ArgSignature signedByCentral).
Proof.
  destruct (@verifySignature_own_key (fixedRuntime [] zeroMessage)
              shipAuth signedByCentral) as (_ & _ & Hon & _).
  destruct (Hon eq_refl eq_refl) as [Hv _]. exact Hv.
Defined.

(** C10 at a message with no previous message. *)
Lemma selectFileNaming_policy_witness :
  @selectFileNaming (fixedRuntime [] zeroMessage)
    (cliCommandTo "ship1" "central") cliSubscriber
  = ("bar.log", "var/foo/ship1").
Proof.
  destruct (@selectFileNaming_policy (fixedRuntime [] zeroMessage)
              (cliCommandTo "ship1" "central") cliSubscriber)
    as (Hnone & _ & _ & Hjoin).
  rewrite (Hnone eq_refl). f_equal.
Defined.

(* ===================================================================== *)
(** ** More on the publisher loop *)
(* ===================================================================== *)

(** The books of the loop, from any state: one subscription made for every
    publish tried, and on a subject of an ACK kind one wait for every
    publish accepted. *)
Lemma deliverLoop_accounting `{Runtime} (proc : process) (m : Message) :
  forall (answers : list brokerTurn) (r : Z) (log : list effect),
    (count is_SubscribeSync_ok (delivery_log (deliverLoop proc m r answers log))
       + count is_PublishMsg log
     = count is_SubscribeSync_ok log
       + count is_PublishMsg (delivery_log (deliverLoop proc m r answers log)))%nat
    /\ (count is_NextMsg (delivery_log (deliverLoop proc m r answers log))
          + (if isACK (Subject_Event (subject proc))
             then count is_PublishMsg_ok log else 0)
        = count is_NextMsg log
          + (if isACK (Subject_Event (subject proc))
             then count is_PublishMsg_ok
                    (delivery_log (deliverLoop proc m r answers log))
             else 0))%nat.
Proof.
  induction answers as [|a answers IH]; intros r log.
  - simpl. split; lia.
  - rewrite deliverLoop_turn. cbv zeta.
    set (log0 := if snd (gobEncodeMessage m)
                 then log ++ [Log LogCreateDataPayload] else log).
    assert (H0 : count is_NextMsg log0 = count is_NextMsg log
                 /\ count is_SubscribeSync_ok log0 = count is_SubscribeSync_ok log
                 /\ count is_PublishMsg log0 = count is_PublishMsg log
                 /\ count is_PublishMsg_ok log0 = count is_PublishMsg_ok log).
    { unfold log0. destruct (snd (gobEncodeMessage m)); [|by repeat split].
      count_log. lia. }
    destruct H0 as (Hn & Hs & Hp & Hk).
    destruct (subscribeFails a).
    { match goal with
      | |- context [deliverLoop _ _ _ _ ?l] => destruct (IH r l) as (IHs & IHn)
      end.
      revert IHs IHn. count_log.
      destruct (isACK (Subject_Event (subject proc))); lia. }
    destruct (publishFails a).
    { match goal with
      | |- context [deliverLoop _ _ _ _ ?l] => destruct (IH r l) as (IHs & IHn)
      end.
      revert IHs IHn. count_log.
      destruct (isACK (Subject_Event (subject proc))); lia. }
    destruct (isACK (Subject_Event (subject proc))) eqn:Hack.
    + destruct (reply a) as [d|].
      * cbn [delivery_log]. count_log. lia.
      * destruct (Retries m =? 0)%Z;
          [|destruct (wrap_int (r + 1) >=? Retries m)%Z];
          try (match goal with
               | |- context [deliverLoop _ _ ?r1 _ ?l] =>
                   destruct (IH r1 l) as (IHs & IHn)
               end;
               revert IHs IHn; rewrite ?Hack; count_log; lia).
        cbn [delivery_log]. count_log. lia.
    + cbn [delivery_log]. count_log. lia.
Qed.

(** X1. Whatever the kind of the subject and whatever the broker answers,
    the loop has made one reply subscription for every publish it tried;
    on a subject of an ACK kind it has waited for a reply once for every
    publish that was accepted, on any other subject never. *)
Theorem messageDeliverNats_accounting `{Runtime}
  (proc : process) (m : Message) (answers : list brokerTurn) :
  count is_SubscribeSync_ok (delivery_log (messageDeliverNats proc m answers))
    = count is_PublishMsg (delivery_log (messageDeliverNats proc m answers))
  /\ count is_NextMsg (delivery_log (messageDeliverNats proc m answers))
     = (if isACK (Subject_Event (subject proc))
        then count is_PublishMsg_ok
               (delivery_log (messageDeliverNats proc m answers))
        else 0%nat).
Proof.
  unfold messageDeliverNats.
  destruct (deliverLoop_accounting proc m answers 0 []) as [Hs Hn].
  revert Hs Hn. count_log.
  destruct (isACK (Subject_Event (subject proc))); lia.
Qed.

Lemma deliverLoop_broker_down `{Runtime} (proc : process) (m : Message) :
  forall (fails : list brokerTurn) (r : Z) (log : list effect),
    Forall (fun t => brokerFails t = true) fails ->
    exists log',
      deliverLoop proc m r fails log = StillTrying r log'
      /\ count is_PublishMsg_ok log' = count is_PublishMsg_ok log
      /\ count is_NextMsg log' = count is_NextMsg log
      /\ count is_SubscribeSync log'
         = (count is_SubscribeSync log + length fails)%nat.
Proof.
  induction fails as [|a fails IH]; intros r log Hf.
  - exists log. simpl. repeat split; lia.
  - apply Forall_cons in Hf. destruct Hf as [Ha Hf].
    rewrite deliverLoop_turn. cbv zeta. unfold brokerFails in Ha.
    set (log0 := if snd (gobEncodeMessage m)
                 then log ++ [Log LogCreateDataPayload] else log).
    assert (H0 : count is_NextMsg log0 = count is_NextMsg log
                 /\ count is_SubscribeSync log0 = count is_SubscribeSync log
                 /\ count is_PublishMsg_ok log0 = count is_PublishMsg_ok log).
    { unfold log0. destruct (snd (gobEncodeMessage m)); [|by repeat split].
      count_log. lia. }
    destruct H0 as (Hn & Hs & Hk).
    destruct (subscribeFails a).
    { match goal with
      | |- context [deliverLoop _ _ _ _ ?l] =>
          destruct (IH r l Hf) as (log' & Hd & Hk' & Hn' & Hs')
      end.
      exists log'. split; [exact Hd|].
      revert Hk' Hn' Hs'. count_log. cbn [length]. lia. }
    destruct (publishFails a); [|discriminate].
    match goal with
    | |- context [deliverLoop _ _ _ _ ?l] =>
        destruct (IH r l Hf) as (log' & Hd & Hk' & Hn' & Hs')
    end.
    exists log'. split; [exact Hd|].
    revert Hk' Hn' Hs'. count_log. cbn [length]. lia.
Qed.

(** X2. While the broker refuses every subscription or publish, the loop
    goes round without end, whatever [Retries] says and whatever the kind
    of the subject: a refusal is not counted as an attempt. Each turn makes
    one call to [SubscribeSync]; nothing is published and nothing waited
    for. *)
Theorem messageDeliverNats_broker_down `{Runtime}
  (proc : process) (m : Message) (fails : list brokerTurn) :
  Forall (fun t => brokerFails t = true) fails ->
  exists log,
    messageDeliverNats proc m fails = StillTrying 0 log
    /\ count is_PublishMsg_ok log = 0%nat
    /\ count is_NextMsg log = 0%nat
    /\ count is_SubscribeSync log = length fails.
Proof.
  intros Hf. unfold messageDeliverNats.
  destruct (deliverLoop_broker_down proc m fails 0 [] Hf)
    as (log' & Hd & Hk & Hn & Hs).
  exists log'. split; [exact Hd|]. revert Hk Hn Hs. count_log. lia.
Qed.

(** X2 at a command with one retry and a broker that is down for five
    turns. *)
Lemma messageDeliverNats_broker_down_witness :
  exists log,
    @messageDeliverNats (fixedRuntime [] zeroMessage) ackPublisher
      (helloTo "ship1" "central") (repeat (mkTurn false true None) 5)
    = StillTrying 0 log
    /\ count is_PublishMsg_ok log = 0%nat.
Proof.
  destruct (@messageDeliverNats_broker_down (fixedRuntime [] zeroMessage)
              ackPublisher (helloTo "ship1" "central")
              (repeat (mkTurn false true None) 5))
    as (log & Hd & Hk & _).
  - repeat constructor.
  - exists log. by split.
Defined.

(** X3. With a negative [Retries] the loop on a subject of an ACK kind
    gives up at the first timeout: one publish, the line about the maximum
    of retries, and the return. *)
Theorem messageDeliverNats_negative_retries `{Runtime}
  (proc : process) (m : Message) (rest : list brokerTurn) :
  isACK (Subject_Event (subject proc)) = true ->
  Retries m < 0 ->
  exists log,
    messageDeliverNats proc m (timesOut :: rest) = Delivered log
    /\ count is_PublishMsg log = 1%nat
    /\ last log = Some (Log (LogMaxRetries 1)).
Proof.
  intros Hack Hneg. unfold messageDeliverNats.
  rewrite deliverLoop_turn. cbv zeta.
  cbn [timesOut subscribeFails publishFails reply]. rewrite Hack.
  change (wrap_int (0 + 1)) with 1.
  destruct (Z.eqb_spec (Retries m) 0) as [E|_]; [lia|].
  destruct (Z.geb_spec 1 (Retries m)) as [_|Hlt]; [|lia].
  eexists. split; [reflexivity|]. split.
  - destruct (snd (gobEncodeMessage m)); count_log; lia.
  - by rewrite last_snoc.
Qed.

(** X3 at a command that asks for minus one retries. *)
Lemma messageDeliverNats_negative_retries_witness :
  exists log,
    @messageDeliverNats (fixedRuntime [] zeroMessage) ackPublisher
      (mkMessage "ship1" [] 0 [] REQCliCommand [] [] "" [] false "central"
         1 (-1) 0 0 0 0 "" "" None)
      (timesOut :: [timesOut; replyArrives []])
    = Delivered log
    /\ count is_PublishMsg log = 1%nat.
Proof.
  destruct (@messageDeliverNats_negative_retries (fixedRuntime [] zeroMessage)
              ackPublisher
              (mkMessage "ship1" [] 0 [] REQCliCommand [] [] "" [] false
                 "central" 1 (-1) 0 0 0 0 "" "" None)
              [timesOut; replyArrives []] eq_refl)
    as (log & Hd & Hc & _).
  - simpl. lia.
  - exists log. by split.
Defined.

(** The turn in which the reply arrives ends the loop, from any state. *)
Lemma deliverLoop_reply `{Runtime} (proc : process) (m : Message)
  (r : Z) (d : bytes) (rest : list brokerTurn) (log : list effect) :
  isACK (Subject_Event (subject proc)) = true ->
  exists log',
    deliverLoop proc m r (replyArrives d :: rest) log = Delivered log'
    /\ count is_PublishMsg log' = (count is_PublishMsg log + 1)%nat
    /\ last log' = Some (Log (LogReceivedACK d)).
Proof.
  intros Hack. rewrite deliverLoop_turn. cbv zeta.
  cbn [replyArrives subscribeFails publishFails reply]. rewrite Hack.
  eexists. split; [reflexivity|]. split.
  - destruct (snd (gobEncodeMessage m)); count_log; lia.
  - rewrite last_app. reflexivity.
Qed.

(** X4. A reply that comes after k timeouts, k below [Retries] (or any k
    when [Retries] is zero), is still taken: the loop returns on it with
    k+1 publishes made and the acknowledgement logged last, and the line
    about the maximum of retries is not written. *)
Theorem messageDeliverNats_late_reply `{Runtime}
  (proc : process) (m : Message) (k : nat) (d : bytes)
  (rest : list brokerTurn) :
  isACK (Subject_Event (subject proc)) = true ->
  in_int (Retries m) ->
  Retries m = 0 \/ Z.of_nat k < Retries m ->
  exists log,
    messageDeliverNats proc m (repeat timesOut k ++ replyArrives d :: rest)
      = Delivered log
    /\ count is_PublishMsg log = S k
    /\ last log = Some (Log (LogReceivedACK d)).
Proof.
  intros Hack Hint Hk. unfold messageDeliverNats.
  destruct (deliverLoop_timeouts proc m Hack k 0 [])
    as (r' & log' & Hd & Hc & _ & _).
  { destruct Hk as [Hz|Hlt]; [by left|right]. repeat split; try lia; apply Hint. }
  rewrite (deliverLoop_app proc m _ _ 0 [] r' log' Hd).
  destruct (deliverLoop_reply proc m r' d rest log' Hack) as (log'' & Hd' & Hc' & Hl).
  exists log''. split; [exact Hd'|]. split; [|exact Hl].
  rewrite Hc', Hc. count_log. lia.
Qed.

(** X4 at the command of the fixtures (three tries): the reply to the third
    publish. *)
Lemma messageDeliverNats_late_reply_witness :
  exists log,
    @messageDeliverNats (fixedRuntime [] zeroMessage) ackPublisher
      (cliCommandTo "ship1" "central")
      (repeat timesOut 2 ++ replyArrives [] :: [])
    = Delivered log
    /\ count is_PublishMsg log = 3%nat.
Proof.
  destruct (@messageDeliverNats_late_reply (fixedRuntime [] zeroMessage)
              ackPublisher (cliCommandTo "ship1" "central") 2 [] []
              eq_refl)
    as (log & Hd & Hc & _).
  - unfold in_int, int_min, int_max. simpl. lia.
  - right. simpl. lia.
  - exists log. by split.
Defined.

(* ===================================================================== *)
(** ** More on the subscriber's handler *)
(* ===================================================================== *)

Ltac count_log' :=
  repeat rewrite count_app;
  repeat rewrite count_cons;
  repeat rewrite count_nil;
  cbn [is_PublishMsg_ok is_PublishMsg_failed is_PublishMsg is_SubscribeSync
       is_SubscribeSync_ok is_NextMsg is_HandlerCall is_broker is_Publish
       is_SendErrorLog is_ErrSend is_ToRingBuffer is_dispatch_miss].

(** Every entry of the request table declares [EventACK] or [EventNACK]. *)
Lemma Methodhandlers_entries_kinds :
  Forall (fun kv : Method * methodHandler =>
            event kv.2 = EventACK \/ event kv.2 = EventNACK)
    Methodhandlers_entries.
Proof.
  unfold Methodhandlers_entries.
  repeat (constructor;
          [cbn [snd event]; first [by left | by right]|]).
  constructor.
Qed.

Lemma getHandler_kind (method : Method) (h : methodHandler) :
  getHandler method = Some h ->
  event h = EventACK \/ event h = EventNACK.
Proof.
  unfold getHandler, GetMethodsAvailable. cbn [Methodhandlers]. intros Hh.
  apply elem_of_list_to_map_2 in Hh.
  pose proof Methodhandlers_entries_kinds as Hk.
  rewrite Forall_forall in Hk. exact (Hk _ Hh).
Qed.

(** X5. On a subject of an ACK kind the handler, when it returns, has
    published exactly one reply, on the reply subject of the delivery, and
    has sent exactly one error-log message to the central node, whether the
    method handler ran, failed or was refused; when it panics it has sent
    nothing, so the publisher is left to time out. On any other subject no
    call to the broker is made at all. *)
Theorem subscriberHandler_replies `{Runtime} (p : process)
  (ma : MethodsAvailable) (thisNode : string) (msgData : bytes)
  (msgReply : string) :
  match subscriberHandler p ma thisNode msgData msgReply with
  | Returned _ log =>
      if isACK (Subject_Event (subject p)) then
        count is_Publish log = 1%nat
        /\ count is_SendErrorLog log = 1%nat
        /\ count is_broker log = 1%nat
        /\ exists out, In (Publish msgReply out) log
      else count is_broker log = 0%nat /\ count is_SendErrorLog log = 0%nat
  | Panicked _ log =>
      count is_broker log = 0%nat /\ count is_SendErrorLog log = 0%nat
  end.
Proof.
  unfold subscriberHandler.
  destruct (gobDecode msgData) as [message decErr].
  rewrite !CheckIfExists_flag.
  destruct (isACK (Subject_Event (subject p))) eqn:Hack.
  - destruct (bool_decide (FromNode message ∈ allowedReceivers p)
              || bool_decide ("*" ∈ allowedReceivers p)).
    + destruct (Methodhandlers ma !! Method_ message) as [h|].
      * destruct (handler_run h p message thisNode) as [out err].
        split; [destruct decErr, err, (bool_decide _); count_log'; reflexivity|].
        split; [destruct decErr, err, (bool_decide _); count_log'; reflexivity|].
        split; [destruct decErr, err, (bool_decide _); count_log'; reflexivity|].
        exists out. apply in_or_app. right. simpl. by left.
      * destruct decErr, (bool_decide _); count_log'; split; reflexivity.
    + split; [destruct decErr, (bool_decide _); count_log'; reflexivity|].
      split; [destruct decErr, (bool_decide _); count_log'; reflexivity|].
      split; [destruct decErr, (bool_decide _); count_log'; reflexivity|].
      eexists. apply in_or_app. right. simpl. by left.
  - destruct (isNACK (Subject_Event (subject p))).
    + destruct (Methodhandlers ma !! Method_ message) as [h|].
      * destruct (handler_run h p message thisNode) as [out err].
        destruct decErr, err, (bool_decide _); count_log'; split; reflexivity.
      * destruct decErr, (bool_decide _); count_log'; split; reflexivity.
    + destruct decErr; count_log'; split; reflexivity.
Qed.

(** X6. A message that passed [newSubjectAndMessage] and is decoded as it
    was sent never makes the handler of its subject panic or miss: the
    subject has an ACK or a NACK kind, the method is found in the request
    table, and its handler is the one called, with the message and this
    node's name; on a NACK subject for every sender, on an ACK subject for
    the senders that are let in. *)
Theorem subscriberHandler_after_validation `{Runtime} (p : process)
  (m : Message) (sam : subjectAndMessage) (thisNode : string)
  (msgData : bytes) (msgReply : string) :
  newSubjectAndMessage m = Ok sam ->
  subject p = sam_Subject sam ->
  gobDecode msgData = (m, false) ->
  exists h log,
    getHandler (Method_ m) = Some h
    /\ subscriberHandler p GetMethodsAvailable thisNode msgData msgReply
       = Returned tt log
    /\ count is_dispatch_miss log = 0%nat
    /\ (count is_HandlerCall log <= 1)%nat
    /\ (event h = EventNACK \/ FromNode m ∈ allowedReceivers p
        \/ "*" ∈ allowedReceivers p ->
        In (HandlerCall h m thisNode) log).
Proof.
  intros Hok Hsub Hdec.
  apply newSubjectAndMessage_Ok_inv in Hok.
  destruct Hok as (_ & _ & h & Hh & Hs).
  pose proof (getHandler_kind _ _ Hh) as Hkind.
  exists h. unfold subscriberHandler. rewrite Hdec, Hsub, Hs.
  cbn [Subject_Event]. unfold CheckIfExists.
  assert (Hh' : Methodhandlers GetMethodsAvailable !! Method_ m = Some h)
    by exact Hh.
  rewrite Hh'.
  destruct (handler_run h p m thisNode) as [out err] eqn:Hrun.
  destruct Hkind as [Hk|Hk]; rewrite Hk; cbn [isACK isNACK].
  - destruct (bool_decide (FromNode m ∈ allowedReceivers p)) eqn:H1;
      destruct (bool_decide ("*" ∈ allowedReceivers p)) eqn:H2; cbn [orb];
      rewrite ?Hrun;
      (eexists; split; [exact Hh|]; split; [reflexivity|];
       split; [destruct err; count_log'; reflexivity|];
       split; [destruct err; count_log'; lia|]);
      try (intros _; destruct err;
           repeat (apply in_or_app; first [by (right; simpl; left) | left]);
           simpl; tauto).
    intros [Hc|[Hc|Hc]]; [discriminate| |].
    + apply bool_decide_eq_false in H1. contradiction.
    + apply bool_decide_eq_false in H2. contradiction.
  - eexists. split; [exact Hh|]. split; [reflexivity|].
    split; [destruct err; count_log'; reflexivity|].
    split; [destruct err; count_log'; lia|].
    intros _. destruct err; simpl; tauto.
Qed.

(** X6 at a hello message sent to [central]. *)
Lemma subscriberHandler_after_validation_witness :
  exists h log,
    getHandler (Method_ (helloTo "central" "intruder")) = Some h
    /\ @subscriberHandler (fixedRuntime [] (helloTo "central" "intruder"))
         helloSubscriber GetMethodsAvailable "central" [] "reply"
       = Returned tt log
    /\ count is_dispatch_miss log = 0%nat.
Proof.
  destruct (@subscriberHandler_after_validation
              (fixedRuntime [] (helloTo "central" "intruder"))
              helloSubscriber (helloTo "central" "intruder")
              (mkSAM (mkSubject "central" EventNACK REQHello)
                 (helloTo "central" "intruder"))
              "central" [] "reply")
    as (h & log & Hh & Hr & Hm & _).
  - vm_compute. reflexivity.
  - reflexivity.
  - reflexivity.
  - exists h, log. by repeat split.
Defined.

(* ===================================================================== *)
(** ** More on the message readers *)
(* ===================================================================== *)

Lemma convertBytesToSAMs_fold (l : list Message)
  (sams : list subjectAndMessage) (errs : list effect) :
  fold_left convertBytesToSAMs_body l (sams, errs) =
    (sams ++ flat_map samOf l, errs ++ flat_map conversionError l).
Proof.
  revert sams errs.
  induction l as [|m l IH]; intros sams errs; cbn [fold_left flat_map].
  - by rewrite !app_nil_r.
  - assert (Hb : convertBytesToSAMs_body (sams, errs) m =
                 (sams ++ samOf m, errs ++ conversionError m)).
    { unfold convertBytesToSAMs_body, samOf, conversionError.
      destruct (newSubjectAndMessage m); by rewrite app_nil_r. }
    rewrite Hb, IH. by rewrite <- !app_assoc.
Qed.

Lemma samOf_messages (l : list Message) :
  map sam_Message (flat_map samOf l) = List.filter validMessage l.
Proof.
  induction l as [|m l IH]; [reflexivity|].
  cbn [flat_map List.filter]. rewrite map_app, IH.
  unfold samOf, validMessage.
  destruct (newSubjectAndMessage m) as [sm|e] eqn:Hm; [|reflexivity].
  apply newSubjectAndMessage_Ok_inv in Hm. destruct Hm as (_ & Hsm & _).
  cbn [map app]. by rewrite Hsm.
Qed.

Lemma samOf_conversionError_length (l : list Message) :
  (length (flat_map samOf l) + length (flat_map conversionError l)
   = length l)%nat.
Proof.
  induction l as [|m l IH]; [reflexivity|].
  cbn [flat_map]. rewrite !length_app.
  assert (Hm : (length (samOf m) + length (conversionError m) = 1)%nat).
  { unfold samOf, conversionError. by destruct (newSubjectAndMessage m). }
  cbn [length]. lia.
Qed.

Lemma fanOut_errors_length (l : list Message) :
  length (flat_map fanOut_errors l) = length (List.filter unaddressed l).
Proof.
  induction l as [|v l IH]; [reflexivity|].
  cbn [flat_map List.filter]. rewrite length_app, IH.
  unfold fanOut_errors, unaddressed.
  destruct (String.eqb (ToNode v) ""); [|reflexivity].
  by destruct (ToNodes v).
Qed.

(** X7. When the bytes parse, [convertBytesToSAMs] returns, in the order of
    the batch after fan-out, exactly the messages that pass
    [newSubjectAndMessage]; every other message is reported to the error
    kernel, one error each, and so is every message of the batch that has
    neither [ToNode] nor [ToNodes]: nothing is lost without a report, and
    nothing but reports is done on the way. *)
Theorem convertBytesToSAMs_accounts `{Runtime} (b : bytes) (batch : list Message) :
  yaml_Unmarshal b = Some batch ->
  exists sams log,
    convertBytesToSAMs b = (Ok sams, log)
    /\ map sam_Message sams
       = List.filter validMessage (fst (checkMessageToNodes batch))
    /\ (length sams + length log
        = length (fst (checkMessageToNodes batch))
          + length (List.filter unaddressed batch))%nat
    /\ count is_ErrSend log = length log.
Proof.
  intros Hy. unfold convertBytesToSAMs. rewrite Hy.
  rewrite checkMessageToNodes_flat_map. cbn [fst].
  rewrite convertBytesToSAMs_fold. cbn [app].
  eexists _, _. split; [reflexivity|].
  split; [apply samOf_messages|]. split.
  - rewrite length_app, fanOut_errors_length.
    pose proof (samOf_conversionError_length (flat_map fanOut_spec batch)).
    lia.
  - rewrite count_app.
    assert (He : forall l, count is_ErrSend (flat_map fanOut_errors l)
                           = length (flat_map fanOut_errors l)).
    { induction l as [|v l IH]; [reflexivity|].
      cbn [flat_map]. rewrite count_app, length_app, IH. f_equal.
      unfold fanOut_errors. destruct (String.eqb (ToNode v) ""); [|reflexivity].
      by destruct (ToNodes v). }
    assert (Hc : forall l, count is_ErrSend (flat_map conversionError l)
                           = length (flat_map conversionError l)).
    { induction l as [|v l IH]; [reflexivity|].
      cbn [flat_map]. rewrite count_app, length_app, IH. f_equal.
      unfold conversionError. by destruct (newSubjectAndMessage v). }
    rewrite He, Hc, length_app. reflexivity.
Qed.

(** X7 at a batch of a command, a message with no address and a message
    with a method outside the table. *)
Lemma convertBytesToSAMs_accounts_witness :
  exists sams log,
    @convertBytesToSAMs
      (fixedRuntime [cliCommandTo "ship1" "central"; cliCommandTo "" "central";
                     unknownMethodTo "ship1" "central"] zeroMessage) []
    = (Ok sams, log)
    /\ map sam_Message sams = [cliCommandTo "ship1" "central"]
    /\ length log = 2%nat.
Proof.
  destruct (@convertBytesToSAMs_accounts
              (fixedRuntime [cliCommandTo "ship1" "central";
                             cliCommandTo "" "central";
                             unknownMethodTo "ship1" "central"] zeroMessage)
              [] _ eq_refl)
    as (sams & log & Hc & Hm & Hl & _).
  exists sams, log. split; [exact Hc|]. split.
  - rewrite Hm. vm_compute. reflexivity.
  - assert (Hs : length sams = 1%nat).
    { rewrite <- (length_map sam_Message), Hm. vm_compute. reflexivity. }
    rewrite Hs in Hl.
    match type of Hl with
    | _ = ?r => assert (Hr : r = 3%nat) by (vm_compute; reflexivity);
                rewrite Hr in Hl
    end.
    lia.
Defined.

(** From an index that is inside the batch and with no blank [FromNode]
    from there on, the removal loop leaves the batch as it is. *)
Lemma removeBlankFromNode_no_blank (turns : nat) :
  forall (i : nat) (sams : list subjectAndMessage) (log : list effect),
    (i < length sams)%nat ->
    Forall (fun sam => blankFromNode sam = false) (drop i sams) ->
    removeBlankFromNode turns i sams log = Returned sams log.
Proof.
  induction turns as [|turns IH]; intros i sams log Hi Hnb; [reflexivity|].
  rewrite removeBlankFromNode_turn.
  destruct (lookup_lt_is_Some_2 sams i Hi) as [x Hx]. rewrite Hx.
  assert (Hbx : blankFromNode x = false).
  { rewrite Forall_forall in Hnb. apply Hnb.
    apply list_elem_of_lookup. exists 0%nat.
    rewrite lookup_drop. by rewrite Nat.add_0_r. }
  unfold blankFromNode in Hbx. rewrite Hbx.
  destruct (Z.eqb_spec (Z.of_nat i) (Z.of_nat (length sams) - 1)) as [_|Hne];
    [reflexivity|].
  apply IH; [lia|].
  rewrite <- (Nat.add_1_r i), <- drop_drop. by apply Forall_drop.
Qed.

Lemma removeBlankFromNode_one_blank (turns : nat) :
  forall (i : nat) (pre : list subjectAndMessage) (x : subjectAndMessage)
         (post : list subjectAndMessage) (log : list effect),
    (i <= length pre)%nat ->
    (turns + i = length (pre ++ x :: post))%nat ->
    Forall (fun sam => blankFromNode sam = false) (drop i pre) ->
    blankFromNode x = true ->
    Forall (fun sam => blankFromNode sam = false) post ->
    removeBlankFromNode turns i (pre ++ x :: post) log =
      Returned (pre ++ post) (log ++ [ErrSend zeroMessage ErrMissingFromField]).
Proof.
  induction turns as [|turns IH]; intros i pre x post log Hi Ht Hpre Hx Hpost.
  - rewrite length_app in Ht. cbn [length] in Ht. lia.
  - rewrite removeBlankFromNode_turn.
    destruct (decide (i = length pre)) as [->|Hlt].
    + rewrite list_lookup_middle by reflexivity.
      unfold blankFromNode in Hx. rewrite Hx.
      rewrite take_app_length.
      replace (drop (S (length pre)) (pre ++ x :: post)) with post.
      2:{ rewrite (cons_middle x pre post), app_assoc.
          rewrite drop_app_length'; [reflexivity|].
          rewrite length_app. cbn. lia. }
      destruct (Z.eqb_spec (Z.of_nat (length pre))
                  (Z.of_nat (length (pre ++ post)) - 1)) as [_|Hne];
        [reflexivity|].
      rewrite length_app in Hne, Ht. cbn [length] in Ht.
      destruct post as [|y post]; cbn [length] in *.
      * assert (turns = 0%nat) by lia. subst turns. reflexivity.
      * apply removeBlankFromNode_no_blank.
        -- rewrite length_app. cbn [length] in *. lia.
        -- rewrite drop_app_ge by lia.
           apply Forall_drop. exact Hpost.
    + assert (Hi' : (i < length pre)%nat) by lia.
      destruct (lookup_lt_is_Some_2 pre i Hi') as [y Hy].
      rewrite lookup_app_l by exact Hi'. rewrite Hy.
      assert (Hby : blankFromNode y = false).
      { rewrite Forall_forall in Hpre. apply Hpre.
        apply list_elem_of_lookup. exists 0%nat.
        rewrite lookup_drop. by rewrite Nat.add_0_r. }
      unfold blankFromNode in Hby. rewrite Hby.
      destruct (Z.eqb_spec (Z.of_nat i)
                  (Z.of_nat (length (pre ++ x :: post)) - 1)) as [He|_].
      * rewrite length_app in He. cbn [length] in He. lia.
      * apply IH; try assumption; try lia.
        rewrite <- (Nat.add_1_r i), <- drop_drop. by apply Forall_drop.
Qed.

(** X8. On a batch in which no message lacks [FromNode] the removal loop of
    [readStartupFolder] changes nothing and reports nothing; on a batch in
    which exactly one message lacks it, the loop returns the batch without
    that message, the others in their order, and reports one error. *)
Theorem removeBlankFromNode_at_most_one (log : list effect) :
  (forall sams,
     Forall (fun sam => blankFromNode sam = false) sams ->
     removeBlankFromNode (length sams) 0 sams log = Returned sams log)
  /\ (forall pre x post,
        Forall (fun sam => blankFromNode sam = false) pre ->
        blankFromNode x = true ->
        Forall (fun sam => blankFromNode sam = false) post ->
        removeBlankFromNode (length (pre ++ x :: post)) 0 (pre ++ x :: post) log
        = Returned (pre ++ post)
            (log ++ [ErrSend zeroMessage ErrMissingFromField])).
Proof.
  split.
  - intros sams Hnb. destruct sams as [|s sams]; [reflexivity|].
    apply removeBlankFromNode_no_blank; [cbn; lia|exact Hnb].
  - intros pre x post Hpre Hx Hpost.
    apply removeBlankFromNode_one_blank; try assumption; lia.
Qed.

(** X8 at a batch of three with the blank one in the middle. *)
Lemma removeBlankFromNode_at_most_one_witness :
  removeBlankFromNode 3 0
    ([mkSAM zeroSubject opsCli] ++ mkSAM zeroSubject blankCli
       :: [mkSAM zeroSubject opsCli]) []
  = Returned ([mkSAM zeroSubject opsCli] ++ [mkSAM zeroSubject opsCli])
      ([] ++ [ErrSend zeroMessage ErrMissingFromField]).
Proof.
  destruct (removeBlankFromNode_at_most_one []) as [_ Hone].
  apply (Hone [mkSAM zeroSubject opsCli] (mkSAM zeroSubject blankCli)
           [mkSAM zeroSubject opsCli]).
  - by repeat constructor.
  - reflexivity.
  - by repeat constructor.
Defined.

(* ===================================================================== *)
(** ** The readers of the socket, the TCP listener and HTTP *)
(* ===================================================================== *)












Lemma stampLoop_from (audit : bool) (nodeName : string) :
  forall (rest done : list subjectAndMessage) (evs : list ingressEvent),
    fold_left (stampLoop_body audit nodeName)
      (seq (length done) (length rest)) (done ++ rest, evs)
    = (done ++ map (stamped nodeName) rest,
       evs ++ (if audit
               then map (fun sam => IngressAudit nodeName
                                      (set_FromNode nodeName (sam_Message sam))) rest
               else [])).
Proof.
  induction rest as [|x rest IH]; intros done evs.
  - simpl. destruct audit; by rewrite !app_nil_r.
  - cbn [length seq fold_left map].
    assert (Hb : stampLoop_body audit nodeName (done ++ x :: rest, evs)
                   (length done)
                 = ((done ++ [stamped nodeName x]) ++ rest,
                    if audit
                    then evs ++ [IngressAudit nodeName
                                   (set_FromNode nodeName (sam_Message x))]
                    else evs)).
    { assert (Ha : stampAt nodeName (length done) (done ++ x :: rest)
                   = done ++ stamped nodeName x :: rest).
      { unfold stampAt. rewrite <- (Nat.add_0_r (length done)).
        by rewrite alter_app_r. }
      unfold stampLoop_body. rewrite Ha.
      rewrite list_lookup_middle by reflexivity.
      by rewrite <- app_assoc. }
    rewrite Hb.
    replace (S (length done)) with (length (done ++ [stamped nodeName x]))
      by (rewrite length_app; cbn; lia).
    rewrite IH. destruct audit; by rewrite <- !app_assoc.
Qed.

Lemma stampLoop_spec (audit : bool) (nodeName : string)
  (sams : list subjectAndMessage) :
  stampLoop audit nodeName sams
  = (map (stamped nodeName) sams,
     if audit
     then map (fun sam => IngressAudit nodeName
                            (set_FromNode nodeName (sam_Message sam))) sams
     else []).
Proof. unfold stampLoop. exact (stampLoop_from audit nodeName sams [] []). Qed.

Lemma convertBytesToSAMs_wellAddressed `{Runtime} (b : bytes)
  (sams : list subjectAndMessage) (log : list effect) :
  convertBytesToSAMs b = (Ok sams, log) -> Forall wellAddressed sams.
Proof.
  unfold convertBytesToSAMs.
  destruct (yaml_Unmarshal b) as [batch|]; [|discriminate].
  destruct (checkMessageToNodes batch) as [msgs errs].
  rewrite convertBytesToSAMs_fold. intros [= <- _]. cbn [app].
  induction msgs as [|m msgs IH]; [constructor|].
  cbn [flat_map]. apply Forall_app. split; [|exact IH].
  unfold samOf. destruct (newSubjectAndMessage m) as [sm|e] eqn:Hm;
    [|constructor].
  apply newSubjectAndMessage_Ok_inv in Hm.
  destruct Hm as (Hto & Hmsg & h & Hh & Hsub).
  constructor; [|constructor]. unfold wellAddressed.
  rewrite Hmsg, Hsub. cbn [Subject_ToNode Subject_Method].
  split; [exact Hto|]. split; [by exists h|]. by split.
Qed.

(** X11. Whatever arrives on the socket, the TCP listener or HTTP, and
    whatever [FromNode] the sender wrote into its messages: a reader puts at
    most one batch on the ring buffer, as the last thing it does, and every
    message of that batch carries this node's name as [FromNode], has a
    [ToNode] and a method of the request table, and still has the subject
    that was built for it. After a failed read or bytes that do not parse
    nothing is put on the ring buffer. *)
Theorem readIngress_stamps `{Runtime} (audit : bool) (nodeName : string)
  (calls : list readCall) (evs : list ingressEvent) :
  readIngress audit nodeName calls = Some evs ->
  (length (List.filter is_IngressToRingBuffer evs) <= 1)%nat
  /\ (forall sams, In (IngressToRingBuffer sams) evs ->
        last evs = Some (IngressToRingBuffer sams)
        /\ Forall (fun sam => FromNode (sam_Message sam) = nodeName
                              /\ wellAddressed sam) sams)
  /\ (readLoop calls [] = ReadError -> evs = [IngressReadFailed])
  /\ (forall readBytes e log,
        readLoop calls [] = ReadDone readBytes ->
        convertBytesToSAMs (bytes_Trim_x00 readBytes) = (Err e, log) ->
        List.filter is_IngressToRingBuffer evs = []).
Proof.
  unfold readIngress. intros Hr.
  assert (Hconv : forall log : list effect,
            List.filter is_IngressToRingBuffer (map IngressConverted log) = []
            /\ forall sams, ~ In (IngressToRingBuffer sams) (map IngressConverted log)).
  { induction log as [|e log [IH1 IH2]]; [split; [reflexivity|intros ? []]|].
    split; [exact IH1|].
    intros sams [Hc|Hc]; [discriminate|]. by apply (IH2 sams). }
  assert (Haud : forall l : list subjectAndMessage,
            let a := (if audit
                      then map (fun sam => IngressAudit nodeName
                                    (set_FromNode nodeName (sam_Message sam))) l
                      else []) in
            List.filter is_IngressToRingBuffer a = []
            /\ forall sams, ~ In (IngressToRingBuffer sams) a).
  { intros l. destruct audit; [|split; [reflexivity|intros ? []]].
    induction l as [|x l [IH1 IH2]]; [split; [reflexivity|intros ? []]|].
    split; [exact IH1|].
    intros sams [Hc|Hc]; [discriminate|]. by apply (IH2 sams). }
  destruct (readLoop calls []) as [readBytes| |readBytes]; [| |discriminate].
  - destruct (convertBytesToSAMs (bytes_Trim_x00 readBytes)) as [[sams|e] log] eqn:Hc.
    + rewrite stampLoop_spec in Hr. injection Hr as <-.
      destruct (Hconv log) as [Hc1 Hc2].
      destruct (Haud sams) as [Ha1 Ha2]. cbv zeta in Ha1, Ha2.
      split; [|split; [|split]].
      * rewrite !List.filter_app, Hc1, Ha1. cbn. lia.
      * intros sams' Hin. apply in_app_or in Hin.
        destruct Hin as [Hin|Hin]; [by apply Hc2 in Hin|].
        apply in_app_or in Hin.
        destruct Hin as [Hin|Hin]; [by apply Ha2 in Hin|].
        destruct Hin as [Hin|[]]. injection Hin as <-.
        split; [by rewrite !app_assoc, last_snoc|].
        apply convertBytesToSAMs_wellAddressed in Hc.
        apply Forall_fmap. eapply Forall_impl; [exact Hc|].
        intros sam Hw. split; [reflexivity|]. exact Hw.
      * discriminate.
      * intros ? ? ? [= <-]. rewrite Hc. discriminate.
    + injection Hr as <-. destruct (Hconv log) as [Hc1 Hc2].
      split; [|split; [|split]].
      * rewrite List.filter_app, Hc1. cbn. lia.
      * intros sams' Hin. apply in_app_or in Hin.
        destruct Hin as [Hin|[Hin|[]]]; [by apply Hc2 in Hin|discriminate].
      * discriminate.
      * intros _ _ _ _ _. rewrite List.filter_app, Hc1. reflexivity.
  - injection Hr as <-. split; [cbn; lia|]. split.
    + intros sams [Hin|[]]. discriminate.
    + split; [reflexivity|discriminate].
Qed.

(** X11 at a command that arrives on the socket in one read and names
    another node as its sender. *)
Lemma readIngress_stamps_witness :
  exists evs sams,
    @readIngress (fixedRuntime [cliCommandTo "ship1" "elsewhere"] zeroMessage)
      true "central" [mkRead (String.list_byte_of_string "[]") ReadEOF]
    = Some evs
    /\ last evs = Some (IngressToRingBuffer sams)
    /\ Forall (fun sam => FromNode (sam_Message sam) = "central") sams.
Proof.
  destruct (@readIngress (fixedRuntime [cliCommandTo "ship1" "elsewhere"] zeroMessage)
              true "central" [mkRead (String.list_byte_of_string "[]") ReadEOF])
    as [evs|] eqn:Hr; [|vm_compute in Hr; discriminate].
  destruct (@readIngress_stamps
              (fixedRuntime [cliCommandTo "ship1" "elsewhere"] zeroMessage)
              true "central" _ evs Hr) as (_ & Hin & _).
  exists evs.
  exists [stamped "central"
            (mkSAM (mkSubject "ship1" EventACK REQCliCommand)
               (cliCommandTo "ship1" "elsewhere"))].
  destruct (Hin [stamped "central"
                   (mkSAM (mkSubject "ship1" EventACK REQCliCommand)
                      (cliCommandTo "ship1" "elsewhere"))]) as [Hl Hf].
  { vm_compute in Hr. injection Hr as <-. simpl. tauto. }
  split; [reflexivity|]. split; [exact Hl|].
  eapply Forall_impl; [exact Hf|]. by intros sam [Hs _].
Defined.

(* ===================================================================== *)
(** ** Replies: where they go and where they are filed *)
(* ===================================================================== *)

(** The reply that [newReplyMessage] builds when its subject can be built
    (a lemma on its own, next to the theorem of C8). *)
Lemma newReplyMessage_routed (proc : process) (m : Message) (d : bytes)
  (h : methodHandler) :
  ReplyMethod m <> REQNone -> FromNode m <> "" ->
  getHandler (replyMethodOf m) = Some h ->
  exists reply,
    newReplyMessage proc m d =
      [ToRingBuffer
         [mkSAM (mkSubject (FromNode m) (getKind h) (replyMethodOf m)) reply]]
    /\ ToNode reply = FromNode m
    /\ FromNode reply = ToNode m
    /\ Method_ reply = replyMethodOf m.
Proof.
  intros Hnone Hfrom Hh. unfold newReplyMessage.
  apply String.eqb_neq in Hnone. unfold REQNone in Hnone. rewrite Hnone.
  rewrite replyMethodOf_set.
  match goal with
  | |- context [newSubjectAndMessage ?x] => set (newMsg := x)
  end.
  exists newMsg.
  rewrite (newSubjectAndMessage_Ok newMsg h); [|exact Hfrom|exact Hh].
  by repeat split.
Qed.

(** The one batch of a reader carries the name of this node. *)
Lemma readIngress_FromNode `{Runtime} (audit : bool) (nodeName : string)
  (calls : list readCall) (evs : list ingressEvent)
  (sams : list subjectAndMessage) :
  readIngress audit nodeName calls = Some evs ->
  In (IngressToRingBuffer sams) evs ->
  Forall (fun sam => FromNode (sam_Message sam) = nodeName) sams.
Proof.
  unfold readIngress. intros Hr Hin.
  destruct (readLoop calls []) as [readBytes| |readBytes]; [| |discriminate].
  - destruct (convertBytesToSAMs (bytes_Trim_x00 readBytes)) as [[sams0|e] log].
    + rewrite stampLoop_spec in Hr. injection Hr as <-.
      apply in_app_or in Hin. destruct Hin as [Hin|Hin].
      { apply in_map_iff in Hin. destruct Hin as (? & ? & _). discriminate. }
      apply in_app_or in Hin. destruct Hin as [Hin|Hin].
      { destruct audit; [|destruct Hin].
        apply in_map_iff in Hin. destruct Hin as (? & ? & _). discriminate. }
      destruct Hin as [Hin|[]]. injection Hin as <-.
      apply Forall_fmap. by apply Forall_true.
    + injection Hr as <-. apply in_app_or in Hin. destruct Hin as [Hin|Hin].
      * apply in_map_iff in Hin. destruct Hin as (? & ? & _). discriminate.
      * destruct Hin as [Hin|[]]. discriminate.
  - injection Hr as <-. destruct Hin as [Hin|[]]. discriminate.
Qed.

(** X12. The reply to a message that came in through a reader of node N is
    addressed to N, whatever the sender wrote as [FromNode]: built on the
    node that ran the method, it has N as [ToNode] and as the node of its
    subject, and the node the message was sent to as [FromNode]. *)
Theorem readIngress_reply_comes_back `{Runtime} (audit : bool)
  (nodeName : string) (calls : list readCall) (evs : list ingressEvent)
  (sams : list subjectAndMessage) (sam : subjectAndMessage)
  (proc : process) (d : bytes) (h : methodHandler) :
  readIngress audit nodeName calls = Some evs ->
  In (IngressToRingBuffer sams) evs ->
  In sam sams ->
  nodeName <> "" ->
  ReplyMethod (sam_Message sam) <> REQNone ->
  getHandler (replyMethodOf (sam_Message sam)) = Some h ->
  exists reply,
    newReplyMessage proc (sam_Message sam) d =
      [ToRingBuffer
         [mkSAM (mkSubject nodeName (getKind h)
                   (replyMethodOf (sam_Message sam))) reply]]
    /\ ToNode reply = nodeName
    /\ FromNode reply = ToNode (sam_Message sam).
Proof.
  intros Hr Hin Hsam Hn Hnone Hh.
  pose proof (readIngress_FromNode audit nodeName calls evs sams Hr Hin) as Hf.
  rewrite List.Forall_forall in Hf. specialize (Hf sam Hsam).
  destruct (newReplyMessage_routed proc (sam_Message sam) d h Hnone)
    as (reply & Hrep & Hto & Hfrom & _); [by rewrite Hf|exact Hh|].
  exists reply. rewrite Hf in Hrep, Hto. by repeat split.
Qed.

(** X12 at the command that arrives on the socket of [central]. *)
Lemma readIngress_reply_comes_back_witness :
  exists reply,
    newReplyMessage cliSubscriber
      (set_FromNode "central" (cliCommandTo "ship1" "elsewhere")) [] =
      [ToRingBuffer
         [mkSAM (mkSubject "central" EventACK REQToFileAppend) reply]]
    /\ ToNode reply = "central".
Proof.
  destruct (@readIngress
              (fixedRuntime [cliCommandTo "ship1" "elsewhere"] zeroMessage)
              true "central" [mkRead (String.list_byte_of_string "[]") ReadEOF])
    as [evs|] eqn:Hr; [|vm_compute in Hr; discriminate].
  destruct (@readIngress_reply_comes_back
              (fixedRuntime [cliCommandTo "ship1" "elsewhere"] zeroMessage)
              true "central" [mkRead (String.list_byte_of_string "[]") ReadEOF]
              evs [stamped "central"
                     (mkSAM (mkSubject "ship1" EventACK REQCliCommand)
                        (cliCommandTo "ship1" "elsewhere"))]
              (stamped "central"
                 (mkSAM (mkSubject "ship1" EventACK REQCliCommand)
                    (cliCommandTo "ship1" "elsewhere")))
              cliSubscriber []
              (mkHandler "methodREQToFileAppend" EventACK) Hr)
    as (reply & Hrep & Hto & _).
  - vm_compute in Hr. injection Hr as <-. simpl. tauto.
  - simpl. tauto.
  - discriminate.
  - discriminate.
  - vm_compute. reflexivity.
  - exists reply. by split.
Defined.

(** X13. Whenever [newReplyMessage] sends a reply for a message m, the
    receiver of that reply files it, by [selectFileNaming], under the file
    name of m, in the folder of the [Directory] of m and of the node that m
    was sent to: also when m has no [ToNode], as then the reply has no
    [FromNode] either. *)
Theorem newReplyMessage_filed `{Runtime} (proc p : process) (m : Message)
  (d : bytes) (sub : Subject) (reply : Message) :
  newReplyMessage proc m d = [ToRingBuffer [mkSAM sub reply]] ->
  selectFileNaming reply p =
    (FileName m,
     filepath_Join [SubscribersDataFolder (configuration p);
                    Directory m; ToNode m]).
Proof.
  unfold newReplyMessage.
  destruct (String.eqb (ReplyMethod m) "REQNone"); [discriminate|].
  rewrite replyMethodOf_set.
  match goal with
  | |- context [newSubjectAndMessage ?x] => set (newMsg := x)
  end.
  destruct (newSubjectAndMessage newMsg) as [sam|e] eqn:Hn; [|discriminate].
  intros [= Hsam]. apply newSubjectAndMessage_Ok_inv in Hn.
  destruct Hn as (_ & Hmsg & _). rewrite Hsam in Hmsg.
  cbn [sam_Message] in Hmsg. subst reply.
  unfold selectFileNaming, newMsg. cbn [PreviousMessage FromNode].
  change (ToNode (set_Data [] (set_ReplyMethod (replyMethodOf m) m)))
    with (ToNode m).
  change (FileName (set_Data [] (set_ReplyMethod (replyMethodOf m) m)))
    with (FileName m).
  change (Directory (set_Data [] (set_ReplyMethod (replyMethodOf m) m)))
    with (Directory m).
  change (ToNode (set_ReplyMethod (replyMethodOf m) m)) with (ToNode m).
  destruct (String.eqb (ToNode m) "") eqn:Hto; cbn [negb]; [|reflexivity].
  apply String_eqb_empty in Hto. by rewrite Hto.
Qed.

(** X13 at the command of the fixtures. *)
Lemma newReplyMessage_filed_witness :
  exists reply,
    newReplyMessage cliSubscriber (cliCommandTo "ship1" "central") [] =
      [ToRingBuffer
         [mkSAM (mkSubject "central" EventACK REQToFileAppend) reply]]
    /\ @selectFileNaming (fixedRuntime [] zeroMessage) reply cliSubscriber
       = ("bar.log", "var/foo/ship1").
Proof.
  eexists. split; [vm_compute; reflexivity|].
  erewrite (@newReplyMessage_filed (fixedRuntime [] zeroMessage)
              cliSubscriber cliSubscriber (cliCommandTo "ship1" "central") []
              (mkSubject "central" EventACK REQToFileAppend));
    [reflexivity|vm_compute; reflexivity].
Defined.

(** X14. For a message that names one of the reply methods of
    [GetReplyMethods] and has a sender, [newReplyMessage] never reports an
    error: with [REQNone] it sends nothing, with each of the others it
    puts exactly one message on the ring buffer, on a subject of the
    sender's node, of kind [EventACK] and of that method. *)
Theorem newReplyMessage_reply_methods (proc : process) (m : Message) (d : bytes) :
  In (ReplyMethod m) GetReplyMethods ->
  FromNode m <> "" ->
  (ReplyMethod m = REQNone /\ newReplyMessage proc m d = [])
  \/ (exists reply,
        newReplyMessage proc m d =
          [ToRingBuffer
             [mkSAM (mkSubject (FromNode m) EventACK (ReplyMethod m)) reply]]
        /\ Method_ reply = ReplyMethod m
        /\ ToNode reply = FromNode m).
Proof.
  intros Hin Hfrom.
  assert (Hcase :
    ReplyMethod m = REQNone
    \/ (ReplyMethod m <> REQNone /\ ReplyMethod m <> ""
        /\ exists t, getHandler (ReplyMethod m) = Some (mkHandler t EventACK))).
  { unfold GetReplyMethods in Hin. cbn [In] in Hin.
    destruct Hin as [E|[E|[E|[E|[E|[E|[E|[]]]]]]]]; rewrite <- E;
      first [by left
            | right; split; [discriminate|]; split; [discriminate|];
              eexists; vm_compute; reflexivity]. }
  destruct Hcase as [Hn|(Hn & He & t & Hh)].
  - left. split; [exact Hn|]. unfold newReplyMessage. by rewrite Hn.
  - right.
    assert (Hr : replyMethodOf m = ReplyMethod m).
    { unfold replyMethodOf. apply String.eqb_neq in He. by rewrite He. }
    destruct (newReplyMessage_routed proc m d (mkHandler t EventACK) Hn Hfrom)
      as (reply & Hrep & Hto & _ & Hm); [by rewrite Hr|].
    exists reply. rewrite Hr in Hrep, Hm. by repeat split.
Qed.

(** X14 at a command that asks for its reply on the console. *)
Lemma newReplyMessage_reply_methods_witness :
  exists reply,
    newReplyMessage cliSubscriber
      (set_ReplyMethod "REQToConsole" (cliCommandTo "ship1" "central")) [] =
      [ToRingBuffer
         [mkSAM (mkSubject "central" EventACK "REQToConsole") reply]].
Proof.
  destruct (newReplyMessage_reply_methods cliSubscriber
              (set_ReplyMethod "REQToConsole" (cliCommandTo "ship1" "central"))
              []) as [[Hn _]|(reply & Hr & _)].
  - simpl. tauto.
  - discriminate.
  - discriminate.
  - by exists reply.
Defined.

(* ===================================================================== *)
(** ** Method timeouts and signed arguments *)
(* ===================================================================== *)


Lemma wrap_int_low (z : Z) :
  - 2 ^ 64 <= z < - 2 ^ 63 -> wrap_int z = z + 2 ^ 64.
Proof.
  unfold wrap_int. change (2 ^ 63) with 9223372036854775808.
  change (2 ^ 64) with 18446744073709551616. intros Hz.
  assert (Hm : (z + 9223372036854775808) mod 18446744073709551616
               = z + 9223372036854775808 + 18446744073709551616).
  { symmetry. apply (Z.mod_unique _ _ (-1)); lia. }
  rewrite Hm. lia.
Qed.



Lemma String_append_assoc (a b c : string) :
  String.append (String.append a b) c = String.append a (String.append b c).
Proof.
  induction a as [|x a IH]; [reflexivity|].
  change (String x (String.append (String.append a b) c)
          = String x (String.append a (String.append b c))).
  by rewrite IH.
Qed.

(** [strings.Join] does not tell an argument that holds the separator from
    two arguments. *)
Lemma strings_Join_merge (a b : string) (rest : list string) (sep : string) :
  strings_Join (a :: b :: rest) sep
  = strings_Join (String.append a (String.append sep b) :: rest) sep.
Proof.
  destruct rest as [|r rest]; [reflexivity|].
  change (strings_Join (a :: b :: r :: rest) sep)
    with (String.append a (String.append sep
            (String.append b (String.append sep (strings_Join (r :: rest) sep))))).
  change (strings_Join (String.append a (String.append sep b) :: r :: rest) sep)
    with (String.append (String.append a (String.append sep b))
            (String.append sep (strings_Join (r :: rest) sep))).
  by rewrite !String_append_assoc.
Qed.

(** X16. The signature covers the arguments joined with a space, not the
    list of arguments: a message whose first two arguments are a and b and
    the message that has the one argument "a b" in their place get the
    same answer from [verifySignature], with the same [ArgSignature]. *)
Theorem verifySignature_joined_args `{Runtime} (n : nodeAuth) (m : Message)
  (a b : string) (rest : list string) :
  verifySignature n (set_MethodArgs (a :: b :: rest) m)
  = verifySignature n
      (set_MethodArgs (String.append a (String.append " " b) :: rest) m).
Proof.
  unfold verifySignature, argsToString. cbn [Method_ MethodArgs ArgSignature set_MethodArgs].
  by rewrite strings_Join_merge.
Qed.

(* ===================================================================== *)
(** ** Processes and the publisher worker *)
(* ===================================================================== *)

Lemma allowedReceivers_fold (l : list Node) (acc : gset string) (a : Node) :
  a ∈ fold_left (fun (m : gset string) a => {[a]} ∪ m) l acc
  <-> a ∈ acc \/ In a l.
Proof.
  revert acc. induction l as [|x l IH]; intros acc; cbn [fold_left In].
  - tauto.
  - rewrite IH. rewrite elem_of_union, elem_of_singleton. intuition congruence.
Qed.

Lemma wrap_int_succ_ne (z : Z) : in_int z -> wrap_int (z + 1) <> z.
Proof.
  unfold in_int, int_min, int_max. change (2 ^ 63) with 9223372036854775808.
  intros Hz. destruct (Z.eq_dec z 9223372036854775807) as [->|Hne].
  - vm_compute. discriminate.
  - rewrite wrap_int_id; [lia|].
    unfold in_int, int_min, int_max. change (2 ^ 63) with 9223372036854775808.
    lia.
Qed.

(** X17. [newProcess] lets in exactly the nodes of the slice it is given
    (a node listed twice counts once, the empty slice lets in nobody),
    starts the message counter at zero, takes the node from the subject,
    and gives the process the server's counter moved by one: two processes
    made one after the other never share a process ID, and the table of
    processes is not touched. *)
Theorem newProcess_fresh (s : server) (subject : Subject) (kind : string)
  (allowed : list Node) :
  in_int (lastProcessID s) ->
  (forall a, a ∈ worker_allowedReceivers (newProcess s subject kind allowed).1
             <-> In a allowed)
  /\ messageID (newProcess s subject kind allowed).1 = 0
  /\ worker_node (newProcess s subject kind allowed).1 = Subject_ToNode subject
  /\ processID (newProcess s subject kind allowed).1
     = lastProcessID (newProcess s subject kind allowed).2
  /\ processID (newProcess s subject kind allowed).1 <> lastProcessID s
  /\ processes (newProcess s subject kind allowed).2 = processes s
  /\ (forall subject' kind' allowed',
        processID (newProcess (newProcess s subject kind allowed).2
                     subject' kind' allowed').1
        <> processID (newProcess s subject kind allowed).1).
Proof.
  intros Hint. unfold newProcess. cbn [fst snd worker_allowedReceivers messageID
    worker_node processID lastProcessID processes].
  split; [|repeat split].
  - intros a. rewrite allowedReceivers_fold. rewrite elem_of_empty. tauto.
  - by apply wrap_int_succ_ne.
  - intros _ _ _. apply wrap_int_succ_ne.
    unfold wrap_int, in_int, int_min, int_max.
    change (2 ^ 63) with 9223372036854775808.
    change (2 ^ 64) with 18446744073709551616.
    pose proof (Z.mod_pos_bound (lastProcessID s + 1 + 9223372036854775808)
                  18446744073709551616 ltac:(lia)). lia.
Qed.

(** X17 on a fresh server. *)
Lemma newProcess_fresh_witness :
  processID (newProcess freshServer shipSubject processKindPublisher
               ["central"; "central"]).1 = 1
  /\ ("central" ∈ worker_allowedReceivers
        (newProcess freshServer shipSubject processKindPublisher
           ["central"; "central"]).1).
Proof.
  destruct (newProcess_fresh freshServer shipSubject processKindPublisher
              ["central"; "central"]) as (Hin & _ & _ & Hid & _).
  - unfold in_int, int_min, int_max. simpl. lia.
  - split; [reflexivity|]. apply Hin. simpl. tauto.
Defined.

(** X18. [spawnWorker] stores the process under the name made of its
    subject and kind and leaves every other entry alone; a process of the
    same subject and kind that was stored before is replaced by the new
    one, and a process whose kind is neither publisher nor subscriber is
    stored under the empty name. *)
Theorem spawnWorker_register_lookup (p : worker) (s : server) :
  processes (spawnWorker_register p s) !! spawnWorker_name p = Some p
  /\ (forall pn, pn <> spawnWorker_name p ->
        processes (spawnWorker_register p s) !! pn = processes s !! pn)
  /\ (forall q, spawnWorker_name q = spawnWorker_name p ->
        spawnWorker_register p (spawnWorker_register q s)
        = spawnWorker_register p s)
  /\ (worker_processKind p <> processKindPublisher ->
      worker_processKind p <> processKindSubscriber ->
      spawnWorker_name p = "")
  /\ lastProcessID (spawnWorker_register p s) = lastProcessID s.
Proof.
  unfold spawnWorker_register. cbn [processes lastProcessID].
  split; [apply lookup_insert_eq|]. split.
  - intros pn Hne. by apply lookup_insert_ne.
  - split; [|split; [|reflexivity]].
    + intros q Hq. rewrite Hq. by rewrite insert_insert_eq.
    + intros Hp Hs. unfold spawnWorker_name.
      apply String.eqb_neq in Hp. apply String.eqb_neq in Hs.
      by rewrite Hp, Hs.
Qed.

Lemma publishMessages_turn `{Runtime} (p : worker) (s : server)
  (m : Message) (answers : list brokerTurn)
  (jobs : list (Message * list brokerTurn)) :
  publishMessages p s ((m, answers) :: jobs) =
    let pn := processNameGet (Subject_name (worker_subject p))
                processKindPublisher in
    let m' := set_ID (messageID (default zeroWorker (processes s !! pn))) m in
    match messageDeliverNats (worker_process p) m' answers with
    | StillTrying r log => ([(m', StillTrying r log)], p, s)
    | Delivered log =>
        let p1 := set_messageID (wrap_int (messageID p + 1)) p in
        let s1 := mkServer (lastProcessID s) (<[pn := p1]> (processes s)) in
        ((m', Delivered log) :: (publishMessages p1 s1 jobs).1.1,
         (publishMessages p1 s1 jobs).1.2,
         (publishMessages p1 s1 jobs).2)
    end.
Proof.
  cbn [publishMessages]. cbv zeta.
  destruct (messageDeliverNats _ _ answers); [|reflexivity].
  by destruct (publishMessages _ _ jobs) as [[out p'] s'].
Qed.

Lemma publishMessages_ids `{Runtime} :
  forall (jobs : list (Message * list brokerTurn)) (p : worker) (s : server),
    processes s !! processNameGet (Subject_name (worker_subject p))
                     processKindPublisher = Some p ->
    in_int (messageID p) ->
    in_int (messageID p + Z.of_nat (length jobs)) ->
    let '(out, p', s') := publishMessages p s jobs in
    (forall (i : nat) (m : Message) (d : delivery),
       out !! i = Some (m, d) ->
       exists m0 answers,
         jobs !! i = Some (m0, answers)
         /\ m = set_ID (messageID p + Z.of_nat i) m0
         /\ d = messageDeliverNats (worker_process p) m answers)
    /\ (length out <= length jobs)%nat
    /\ (Forall (fun md => exists log, snd md = Delivered log) out ->
        length out = length jobs
        /\ messageID p' = messageID p + Z.of_nat (length jobs)
        /\ processes s' !! processNameGet (Subject_name (worker_subject p))
                              processKindPublisher = Some p').
Proof.
  induction jobs as [|[m0 answers] jobs IH]; intros p s Hreg Hi Hn.
  - cbn [publishMessages]. split; [|split].
    + intros i m d Hl. discriminate.
    + reflexivity.
    + intros _. split; [reflexivity|]. split; [cbn; lia|exact Hreg].
  - rewrite publishMessages_turn. cbv zeta. rewrite Hreg.
    change (default zeroWorker (Some p)) with p.
    set (pn := processNameGet (Subject_name (worker_subject p)) processKindPublisher) in *.
    set (m := set_ID (messageID p) m0).
    destruct (messageDeliverNats (worker_process p) m answers) as [log|r log] eqn:Hd.
    + assert (Hw : wrap_int (messageID p + 1) = messageID p + 1).
      { apply wrap_int_id. unfold in_int, int_min, int_max in *.
        cbn [length] in Hn. lia. }
      rewrite Hw.
      set (p1 := set_messageID (messageID p + 1) p).
      set (s1 := mkServer (lastProcessID s) (<[pn := p1]> (processes s))).
      specialize (IH p1 s1).
      assert (Hreg1 : processes s1 !! processNameGet
                        (Subject_name (worker_subject p1)) processKindPublisher
                      = Some p1).
      { unfold s1. cbn [processes]. apply lookup_insert_eq. }
      assert (Hi1 : in_int (messageID p1)).
      { unfold p1. cbn [messageID set_messageID].
        unfold in_int, int_min, int_max in *. cbn [length] in Hn. lia. }
      assert (Hn1 : in_int (messageID p1 + Z.of_nat (length jobs))).
      { unfold p1. cbn [messageID set_messageID]. cbn [length] in Hn.
        replace (messageID p + 1 + Z.of_nat (length jobs))
          with (messageID p + Z.of_nat (S (length jobs))) by lia. exact Hn. }
      specialize (IH Hreg1 Hi1 Hn1).
      destruct (publishMessages p1 s1 jobs) as [[out p'] s'].
      destruct IH as (IHi & IHl & IHf).
      cbn [fst snd].
      split; [|split].
      * intros [|i] m' d' Hl.
        -- injection Hl as <- <-. exists m0, answers.
           split; [reflexivity|]. split; [|by rewrite Hd].
           unfold m. f_equal. lia.
        -- destruct (IHi i m' d' Hl) as (m1 & a1 & Hj & Hm & Hd').
           exists m1, a1. split; [exact Hj|]. split.
           ++ rewrite Hm. unfold p1. cbn [messageID set_messageID]. f_equal. lia.
           ++ exact Hd'.
      * cbn [length]. lia.
      * intros Hall. apply Forall_cons in Hall. destruct Hall as [_ Hall].
        destruct (IHf Hall) as (Hlen & Hid & Hreg').
        split; [cbn [length]; lia|]. split.
        -- rewrite Hid. unfold p1. cbn [messageID set_messageID length]. lia.
        -- exact Hreg'.
    + split; [|split].
      * intros [|i] m' d' Hl; [|discriminate].
        injection Hl as <- <-. exists m0, answers.
        split; [reflexivity|]. split; [|by rewrite Hd].
        unfold m. f_equal. lia.
      * cbn [length]. lia.
      * intros Hall. apply Forall_cons in Hall. destruct Hall as [[l Hl] _].
        discriminate.
Qed.

(** X19. A publisher that was stored in the table of processes under its
    name hands its messages to [messageDeliverNats] in the order they
    arrive, the i-th (from zero) with the ID counter-at-start + i, for as
    long as the deliveries return; after n returned deliveries the stored
    process counts n more. (A delivery that does not return stops the
    worker at that message.) *)
Theorem publishMessages_consecutive_ids `{Runtime} (p : worker) (s : server)
  (jobs : list (Message * list brokerTurn)) :
  processes s !! processNameGet (Subject_name (worker_subject p))
                   processKindPublisher = Some p ->
  in_int (messageID p) ->
  in_int (messageID p + Z.of_nat (length jobs)) ->
  (forall (i : nat) (m : Message) (d : delivery),
     (publishMessages p s jobs).1.1 !! i = Some (m, d) ->
     ID m = messageID p + Z.of_nat i
     /\ exists m0 answers,
          jobs !! i = Some (m0, answers)
          /\ m = set_ID (messageID p + Z.of_nat i) m0
          /\ d = messageDeliverNats (worker_process p) m answers)
  /\ (Forall (fun md => exists log, snd md = Delivered log)
        (publishMessages p s jobs).1.1 ->
      length (publishMessages p s jobs).1.1 = length jobs
      /\ messageID (publishMessages p s jobs).1.2
         = messageID p + Z.of_nat (length jobs)
      /\ processes (publishMessages p s jobs).2
           !! processNameGet (Subject_name (worker_subject p))
                processKindPublisher
         = Some (publishMessages p s jobs).1.2).
Proof.
  intros Hreg Hi Hn.
  pose proof (publishMessages_ids jobs p s Hreg Hi Hn) as Hp.
  destruct (publishMessages p s jobs) as [[out p'] s'].
  destruct Hp as (Hids & _ & Hall). cbn [fst snd]. split; [|exact Hall].
  intros i m d Hl. destruct (Hids i m d Hl) as (m0 & a & Hj & Hm & Hd).
  split; [by rewrite Hm|]. by exists m0, a.
Qed.

(** X19 at a new publisher, stored by [spawnWorker], and two commands of
    which the first is answered at once and the second at the second
    try. *)
Lemma publishMessages_consecutive_ids_witness :
  forall i m d,
    (@publishMessages (fixedRuntime [] zeroMessage)
       (newProcess freshServer shipSubject processKindPublisher []).1
       (spawnWorker_register
          (newProcess freshServer shipSubject processKindPublisher []).1
          (newProcess freshServer shipSubject processKindPublisher []).2)
       [(cliCommandTo "ship1" "central", [replyArrives []]);
        (cliCommandTo "ship1" "central", [timesOut; replyArrives []])]).1.1
      !! i = Some (m, d) ->
    ID m = 0 + Z.of_nat i.
Proof.
  intros i m d Hl.
  destruct (@publishMessages_consecutive_ids (fixedRuntime [] zeroMessage)
              (newProcess freshServer shipSubject processKindPublisher []).1
              (spawnWorker_register
                 (newProcess freshServer shipSubject processKindPublisher []).1
                 (newProcess freshServer shipSubject processKindPublisher []).2)
              [(cliCommandTo "ship1" "central", [replyArrives []]);
               (cliCommandTo "ship1" "central", [timesOut; replyArrives []])])
    as [Hids _].
  - vm_compute. reflexivity.
  - unfold in_int, int_min, int_max. simpl. lia.
  - unfold in_int, int_min, int_max. simpl. lia.
  - destruct (Hids i m d Hl) as [Hid _]. exact Hid.
Defined.
